(** * wandb-gcp-sync: a shallow embedding of [wandb-gcp-sync.py]

    The script polls an experiment tracker for a user's running runs and
    appends the ones not yet listed in a spreadsheet.  This file embeds
    its functions ([load_config], [init_sheet], [get_timestamp],
    [get_run_value], [process_runs], [sync_data], [main] and the
    scheduler loop) and proves properties of them.

    Conventions.
    - A Python function that may raise returns a [result]; the payload of
      [Raise] stands for an instance of a subclass of [Exception], which is
      what every [except Exception] clause of the script catches.
      [KeyboardInterrupt] is not such an instance; it only appears in the
      model of the scheduler loop.
    - Strings are byte strings (UTF-8); comparing them byte by byte orders
      them the way Python orders [str] by code point. *)

From Stdlib Require Import ZArith Lia Ascii.
From stdpp Require Import base option list strings gmap.

Open Scope string_scope.
Open Scope Z_scope.

Set Warnings "-register-all".

(** ** JSON values and messages *)

(** What [json.load] returns.  An object is kept as a list of members
    that stands for the [dict] built from it: looking a name up takes the
    first member of that name. *)
Inductive json :=
| JNull
| JBool (b : bool)
| JInt (z : Z)
| JFloat (repr : string)
| JStr (s : string)
| JArr (l : list json)
| JObj (d : list (string * json)).

(** The text of a log record or of an exception: an f-string, with the
    JSON values interpolated into it left as values. *)
Inductive fragment :=
| Text (s : string)
| Value (v : json).

Definition message : Type := list fragment.

(** ** Exceptions and results *)

Inductive exc_class :=
| Exception
| ConfigError | SheetError
| FileNotFoundError | JSONDecodeError
| KeyError | IndexError | TypeError | ValueError | AttributeError
| SpreadsheetNotFound | WorksheetNotFound
| OtherError (name : string).

Record exc := Exc { exc_cls : exc_class; exc_msg : message }.

Inductive result (A : Type) :=
| Ok (a : A)
| Raise (e : exc).
Arguments Ok {A} a.
Arguments Raise {A} e.

Definition rbind {A B} (r : result A) (k : A -> result B) : result B :=
  match r with
  | Ok a => k a
  | Raise e => Raise e
  end.

Notation "'do' x <- r ; k" := (rbind r (fun x => k))
  (at level 10, x name, r at level 100, k at level 200).

(** [try: body / except Exception: handler] *)
Definition try_except {A} (body : result A) (handler : exc -> result A)
  : result A :=
  match body with
  | Ok a => Ok a
  | Raise e => handler e
  end.

Fixpoint map_result {A B} (f : A -> result B) (l : list A) : result (list B) :=
  match l with
  | [] => Ok []
  | x :: l' => do y <- f x ; do ys <- map_result f l' ; Ok (y :: ys)
  end.

(** ** The fragment of the Python runtime the script uses *)

Module Py.

(** Decimal rendering of a natural number given as a [Z]. *)
Definition digit (d : Z) : Ascii.ascii :=
  Ascii.ascii_of_nat (48 + Z.to_nat d)%nat.

Fixpoint digits (fuel : nat) (n : Z) (acc : string) : string :=
  match fuel with
  | O => acc
  | S fuel' =>
      let acc' := String (digit (n mod 10)) acc in
      if n <? 10 then acc' else digits fuel' (n / 10) acc'
  end.

Definition str_nat (n : Z) : string :=
  digits (S (Z.to_nat (Z.log2 n))) n "".

(** [str(z)] for an [int]. *)
Definition str_int (z : Z) : string :=
  if z <? 0 then "-" +:+ str_nat (- z) else str_nat z.

(** Zero padding on the left, as [%02d] and [%04d] do. *)
Fixpoint zeros (n : nat) : string :=
  match n with
  | O => ""
  | S n' => "0" +:+ zeros n'
  end.

Definition pad (width : nat) (n : Z) : string :=
  let s := str_nat n in
  zeros (width - String.length s) +:+ s.

(** A value found in a run's [config] or [summary].  A [float] is kept
    as what the script can observe of it: its [repr] (which is also its
    [str]) and what [datetime.fromtimestamp] makes of it, that is its
    value rounded to microseconds, or the exception raised for [nan]
    ([ValueError]) and for the infinities ([OverflowError]).  [PyObj] is
    any other object, known by what [str] does on it. *)
Inductive value :=
| PyNone
| PyBool (b : bool)
| PyInt (z : Z)
| PyFloat (repr : string) (micros : result Z)
| PyStr (s : string)
| PyObj (str_ : result string).

(** [str(v)] *)
Definition str (v : value) : result string :=
  match v with
  | PyNone => Ok "None"
  | PyBool true => Ok "True"
  | PyBool false => Ok "False"
  | PyInt z => Ok (str_int z)
  | PyFloat repr _ => Ok repr
  | PyStr s => Ok s
  | PyObj r => r
  end.

(** A [datetime], naive (no tzinfo). *)
Record datetime := DateTime {
  year : Z; month : Z; day : Z;
  hour : Z; minute : Z; second : Z; microsecond : Z
}.

(** The proleptic Gregorian date of a day number counted from
    1970-01-01. *)
Definition civil_from_days (days : Z) : Z * Z * Z :=
  let z := days + 719468 in
  let era := z / 146097 in
  let doe := z - era * 146097 in
  let yoe := (doe - doe / 1460 + doe / 36524 - doe / 146096) / 365 in
  let doy := doe - (365 * yoe + yoe / 4 - yoe / 100) in
  let mp := (5 * doy + 2) / 153 in
  let d := doy - (153 * mp + 2) / 5 + 1 in
  let m := if mp <? 10 then mp + 3 else mp - 9 in
  let y := yoe + era * 400 + (if m <=? 2 then 1 else 0) in
  (y, m, d).

(** The argument of [datetime.fromtimestamp] in microseconds since the
    epoch: an [int] (or [bool]) is taken as seconds, a [float] is
    rounded, anything else is refused. *)
Definition timestamp_micros (v : value) : result Z :=
  match v with
  | PyInt z => Ok (z * 1000000)
  | PyBool b => Ok (if b then 1000000 else 0)
  | PyFloat _ micros => micros
  | PyNone | PyStr _ | PyObj _ =>
      Raise (Exc TypeError [Text "an integer is required"])
  end.

Section LocalTime.

(** The zone of the process: the offset from UTC, in seconds east, in
    force at a given instant (seconds since the epoch). *)
Variable utcoffset : Z -> Z.

(** [datetime.fromtimestamp(v)]: local time, no [tz] argument.  The
    year must lie in [MINYEAR..MAXYEAR]. *)
Definition fromtimestamp (v : value) : result datetime :=
  do us <- timestamp_micros v ;
  let secs := us / 1000000 in
  let loc := secs + utcoffset secs in
  let '(y, m, d) := civil_from_days (loc / 86400) in
  let sod := loc mod 86400 in
  if (y <? 1) || (9999 <? y)
  then Raise (Exc ValueError
                [Text ("year " +:+ str_int y +:+ " is out of range")])
  else Ok (DateTime y m d (sod / 3600) (sod mod 3600 / 60) (sod mod 60)
                    (us mod 1000000)).

End LocalTime.

(** [d.strftime(fmt)] for the directives the script uses; any other
    character stands for itself. *)
Definition directive (c : Ascii.ascii) (d : datetime) : string :=
  if bool_decide (c = "Y"%char) then pad 4 (year d)
  else if bool_decide (c = "m"%char) then pad 2 (month d)
  else if bool_decide (c = "d"%char) then pad 2 (day d)
  else if bool_decide (c = "H"%char) then pad 2 (hour d)
  else if bool_decide (c = "M"%char) then pad 2 (minute d)
  else if bool_decide (c = "S"%char) then pad 2 (second d)
  else String "%" (String c "").

Fixpoint strftime (d : datetime) (fmt : string) : string :=
  match fmt with
  | "" => ""
  | String c rest =>
      if bool_decide (c = "%"%char)
      then match rest with
           | "" => "%"
           | String c' rest' => directive c' d +:+ strftime d rest'
           end
      else String c (strftime d rest)
  end.

End Py.

(** ** Runs *)

(** A run of the tracker, read-only.  [run.id], [run.state] and
    [run.user.name] (here [run_user_name]) are strings the run object
    holds.  [run.config] and [run.summary] are evaluated on access, so
    reading them may raise; when they do not, they are mappings from
    names to values. *)
Record run := Run {
  run_id : string;
  run_state : string;
  run_user_name : string;
  run_config : result (gmap string Py.value);
  run_summary : result (gmap string Py.value)
}.

(** A record written by [logger]. *)
Inductive level := INFO | WARNING | ERROR.
Definition log_record : Type := level * message.

Section Rows.

Variable utcoffset : Z -> Z.

(** The body of [get_timestamp], inside its [try]. *)
Definition get_timestamp_body (r : run) : result string :=
  do summary <- run_summary r ;
  match summary !! "_timestamp" with
  | Some v =>
      do d <- Py.fromtimestamp utcoffset v ;
      Ok (Py.strftime d "%Y-%m-%d %H:%M:%S")
  | None => Ok ""
  end.

Definition get_timestamp (r : run) : result string :=
  try_except (get_timestamp_body r) (fun _ => Ok "").

(** The body of [get_run_value], inside its [try]. *)
Definition get_run_value_body (r : run) (key : string) : result string :=
  do config <- run_config r ;
  match config !! key with
  | Some v => Py.str v
  | None =>
      do summary <- run_summary r ;
      match summary !! key with
      | Some v => Py.str v
      | None => Ok ""
      end
  end.

Definition get_run_value (r : run) (key : string) : result string :=
  try_except (get_run_value_body r key) (fun _ => Ok "").

(** The body of the [try] in [process_runs]: one row. *)
Definition row_data (r : run) (final_headers : list string)
  : result (list string) :=
  do ts <- get_timestamp r ;
  do cells <- map_result (get_run_value r) (drop 3 final_headers) ;
  Ok ([run_id r; ts; run_user_name r] ++ cells)%list.

(** [process_runs]: the rows to add, and what it logged. *)
Fixpoint process_runs (runs : list run) (run_id_list : list string)
    (final_headers : list string) (user_name : string)
  : list (list string) * list log_record :=
  match runs with
  | [] => ([], [])
  | r :: runs' =>
      let rest := process_runs runs' run_id_list final_headers user_name in
      if bool_decide (run_state r = "running")
         && negb (bool_decide (run_id r ∈ run_id_list))
      then
        if bool_decide (run_user_name r = user_name)
        then
          match row_data r final_headers with
          | Ok row => (row :: rest.1, rest.2)
          | Raise e =>
              (rest.1,
               (ERROR, Text ("Error processing run " +:+ run_id r +:+ ": ")
                       :: exc_msg e) :: rest.2)
          end
        else rest
      else rest
  end.

End Rows.

(** ** The world outside the script *)

(** What [open(path)] followed by [json.load] gives. *)
Inductive file :=
| FileRaises (e : exc)
| FileJson (v : json).

(** A worksheet of the spreadsheet.  [all_values] is what
    [get_all_values()] returns. *)
Record worksheet := Worksheet {
  ws_id : nat;
  title : string;
  all_values : list (list string);
  row_count : Z;
  col_count : Z
}.

(** The handle [wandb.Api()] returns. *)
Inductive wandb_api := WandbApi.

(** The calls the script makes on the file system, the spreadsheet
    service, the tracker and the clock, in the order it makes them. *)
Inductive call :=
| OpenFile (path : json)
| Authorize (keyfile : json)
| OpenSpreadsheet (name : string)
| ListWorksheets
| DeleteWorksheet (id : nat)
| GetSheet1
| GetAllValues (id : nat)
| AddWorksheet (new_title : string) (rows cols : Z)
| RowValues (id : nat) (row : Z)
| AppendRow (id : nat) (row : list string)
| AppendRows (id : nat) (rows : list (list string))
| NewWandbApi
| ListRuns (team project : json)
| Sleep (seconds : Z).

(** The part of the world the script reads but does not change.  The
    spreadsheet service knows one spreadsheet, [spreadsheet_name]; once it
    is open, the service and the tracker answer every call (their outages
    are not modelled). *)
Record env := Env {
  utcoffset : Z -> Z;
  files : json -> file;
  credentials : json -> result unit;
  spreadsheet_name : string;
  tracker : json -> json -> list run
}.

(** The part the script changes: the worksheets of the spreadsheet
    ([sheet1] is the first), the clock, and the records of what it did. *)
Record world := World {
  worksheets : list worksheet;
  next_id : nat;
  now : Z;
  calls : list call;
  log : list log_record
}.

(** Effectful code: it may raise, and it changes the world either way. *)
Definition M (A : Type) : Type := world -> result A * world.

Definition ret {A} (a : A) : M A := fun w => (Ok a, w).
Definition raise {A} (e : exc) : M A := fun w => (Raise e, w).
Definition lift {A} (r : result A) : M A := fun w => (r, w).

Definition bind {A B} (m : M A) (k : A -> M B) : M B :=
  fun w =>
    match m w with
    | (Ok a, w') => k a w'
    | (Raise e, w') => (Raise e, w')
    end.

Notation "'exec' x <- m ; k" := (bind m (fun x => k))
  (at level 10, x name, m at level 100, k at level 200).

(** [isinstance(e, classes)] for the classes the script names in an
    [except] clause.  [JSONDecodeError] is a [ValueError]; the other
    classes modelled here have no subclass among themselves. *)
Definition subclass (c d : exc_class) : bool :=
  match c, d with
  | _, Exception => true
  | JSONDecodeError, ValueError => true
  | ConfigError, ConfigError | SheetError, SheetError
  | FileNotFoundError, FileNotFoundError
  | JSONDecodeError, JSONDecodeError
  | KeyError, KeyError | IndexError, IndexError | TypeError, TypeError
  | ValueError, ValueError | AttributeError, AttributeError
  | SpreadsheetNotFound, SpreadsheetNotFound
  | WorksheetNotFound, WorksheetNotFound => true
  | OtherError a, OtherError b => bool_decide (a = b)
  | _, _ => false
  end.

Definition isinstance (e : exc) (classes : list exc_class) : bool :=
  existsb (subclass (exc_cls e)) classes.

(** [try: body / except classes1 as e: handler1 / except classes2 ...]:
    the first clause that matches handles the exception; what a handler
    raises is not offered to the clauses after it. *)
Definition try_ {A} (body : M A)
    (clauses : list (list exc_class * (exc -> M A))) : M A :=
  fun w =>
    match body w with
    | (Ok a, w') => (Ok a, w')
    | (Raise e, w') =>
        match List.find (fun c => isinstance e c.1) clauses with
        | Some c => c.2 e w'
        | None => (Raise e, w')
        end
    end.

Definition called (c : call) : M unit :=
  fun w => (Ok tt, World (worksheets w) (next_id w) (now w)
                         (calls w ++ [c]) (log w)).

Definition logger (lvl : level) (msg : message) : M unit :=
  fun w => (Ok tt, World (worksheets w) (next_id w) (now w)
                         (calls w) (log w ++ [(lvl, msg)])).

Definition set_worksheets (l : list worksheet) : M unit :=
  fun w => (Ok tt, World l (next_id w) (now w) (calls w) (log w)).

(** [time.sleep(seconds)] *)
Definition sleep (seconds : Z) : M unit :=
  fun w => (Ok tt, World (worksheets w) (next_id w) (now w + seconds)
                         (calls w ++ [Sleep seconds]) (log w)).

(** ** Python on JSON values *)

Definition is_substring (key s : string) : bool :=
  match String.index 0 key s with
  | Some _ => true
  | None => false
  end.

Fixpoint lookup_member (key : string) (d : list (string * json))
  : option json :=
  match d with
  | [] => None
  | (k, v) :: d' => if bool_decide (k = key) then Some v
                    else lookup_member key d'
  end.

(** [key in config] *)
Definition contains (key : string) (config : json) : result bool :=
  match config with
  | JObj d => Ok (bool_decide (is_Some (lookup_member key d)))
  | JArr l =>
      Ok (existsb (fun x => match x with
                            | JStr s => bool_decide (s = key)
                            | _ => false
                            end) l)
  | JStr s => Ok (is_substring key s)
  | JNull | JBool _ | JInt _ | JFloat _ =>
      Raise (Exc TypeError [Text "argument is not iterable"])
  end.

(** [config[key]] *)
Definition getitem (config : json) (key : string) : result json :=
  match config with
  | JObj d =>
      match lookup_member key d with
      | Some v => Ok v
      | None => Raise (Exc KeyError [Text ("'" +:+ key +:+ "'")])
      end
  | JArr _ =>
      Raise (Exc TypeError
               [Text "list indices must be integers or slices, not str"])
  | JStr _ =>
      Raise (Exc TypeError
               [Text "string indices must be integers, not 'str'"])
  | JNull | JBool _ | JInt _ | JFloat _ =>
      Raise (Exc TypeError [Text "object is not subscriptable"])
  end.

(** [config.get(key, default)] *)
Definition get (config : json) (key : string) (default : json) : result json :=
  match config with
  | JObj d => Ok (from_option (fun v => v) default (lookup_member key d))
  | _ => Raise (Exc AttributeError [Text "object has no attribute 'get'"])
  end.

(** ** The spreadsheet service *)

Definition find_worksheet (id : nat) (l : list worksheet) : option worksheet :=
  List.find (fun ws => bool_decide (ws_id ws = id)) l.

Definition api_error {A} : M A :=
  raise (Exc (OtherError "APIError") [Text "worksheet not found"]).

(** [spreadsheet.worksheets()] *)
Definition list_worksheets : M (list worksheet) :=
  exec _ <- called ListWorksheets;
  fun w => (Ok (worksheets w), w).

(** [spreadsheet.sheet1]: the first worksheet, fetched anew. *)
Definition sheet1 : M worksheet :=
  exec _ <- called GetSheet1;
  fun w =>
    match worksheets w with
    | ws :: _ => (Ok ws, w)
    | [] => (Raise (Exc WorksheetNotFound [Text "index 0"]), w)
    end.

(** [sheet.delete()] *)
Definition delete (sheet : worksheet) : M unit :=
  exec _ <- called (DeleteWorksheet (ws_id sheet));
  fun w =>
    match find_worksheet (ws_id sheet) (worksheets w) with
    | Some _ =>
        set_worksheets
          (List.filter (fun ws => negb (bool_decide (ws_id ws = ws_id sheet)))
                       (worksheets w)) w
    | None => api_error w
    end.

(** [sheet.get_all_values()] *)
Definition get_all_values (sheet : worksheet) : M (list (list string)) :=
  exec _ <- called (GetAllValues (ws_id sheet));
  fun w =>
    match find_worksheet (ws_id sheet) (worksheets w) with
    | Some ws => (Ok (all_values ws), w)
    | None => api_error w
    end.

(** A row as the service returns it: without its trailing empty cells. *)
Fixpoint trim (row : list string) : list string :=
  match row with
  | [] => []
  | c :: row' =>
      match trim row' with
      | [] => if bool_decide (c = "") then [] else [c]
      | t => c :: t
      end
  end.

(** [sheet.row_values(n)], rows counted from 1. *)
Definition row_values (sheet : worksheet) (n : Z) : M (list string) :=
  exec _ <- called (RowValues (ws_id sheet) n);
  fun w =>
    match find_worksheet (ws_id sheet) (worksheets w) with
    | Some ws => (Ok (trim (nth (Z.to_nat (n - 1)) (all_values ws) [])), w)
    | None => api_error w
    end.

(** [spreadsheet.add_worksheet(title=..., rows=..., cols=...)]: the new
    worksheet comes last. *)
Definition add_worksheet (new_title : string) (rows cols : Z) : M worksheet :=
  exec _ <- called (AddWorksheet new_title rows cols);
  fun w =>
    let ws := Worksheet (next_id w) new_title [] rows cols in
    (Ok ws, World (worksheets w ++ [ws]) (S (next_id w)) (now w)
                  (calls w) (log w)).

(** Rows appended below the content of a worksheet; the grid grows by
    rows when it has to. *)
Definition extend (rows : list (list string)) (ws : worksheet) : worksheet :=
  let vs := (all_values ws ++ rows)%list in
  Worksheet (ws_id ws) (title ws) vs
            (Z.max (row_count ws) (Z.of_nat (length vs))) (col_count ws).

Definition append (id : nat) (rows : list (list string)) : M unit :=
  fun w =>
    match find_worksheet id (worksheets w) with
    | Some _ =>
        set_worksheets
          (map (fun ws => if bool_decide (ws_id ws = id)
                          then extend rows ws else ws)
               (worksheets w)) w
    | None => api_error w
    end.

(** [sheet.append_row(row)] *)
Definition append_row (sheet : worksheet) (row : list string) : M unit :=
  exec _ <- called (AppendRow (ws_id sheet) row);
  append (ws_id sheet) [row].

(** [sheet.append_rows(rows)] *)
Definition append_rows (sheet : worksheet) (rows : list (list string)) : M unit :=
  exec _ <- called (AppendRows (ws_id sheet) rows);
  append (ws_id sheet) rows.

(** [min(sheets, key=lambda x: x.title)]: the first sheet among those of
    least title; [ValueError] on an empty sequence. *)
Fixpoint min_by_title (sheets : list worksheet) : result worksheet :=
  match sheets with
  | [] => Raise (Exc ValueError [Text "min() arg is an empty sequence"])
  | x :: sheets' =>
      match min_by_title sheets' with
      | Ok m => if String.ltb (title m) (title x) then Ok m else Ok x
      | Raise _ => Ok x
      end
  end.

(** [sheet.title.startswith('runs_')] *)
Definition is_runs_sheet (sheet : worksheet) : bool :=
  String.prefix "runs_" (title sheet).

(** ** The script *)

Record args := Args {
  schedule_time : Z;
  user_name : string;
  sheet_name : string;
  config_path : string
}.

Definition required_keys : list string := ["GCP_JSON"; "FIXED_HEADERS"].

(** [[key for key in keys if key not in config]] *)
Fixpoint missing_keys (keys : list string) (config : json)
  : result (list string) :=
  match keys with
  | [] => Ok []
  | key :: keys' =>
      do present <- contains key config ;
      do rest <- missing_keys keys' config ;
      Ok (if present then rest else key :: rest)
  end.

(** [str] of a list of plain names, as an f-string prints it. *)
Fixpoint str_names (l : list string) : string :=
  match l with
  | [] => ""
  | [k] => "'" +:+ k +:+ "'"
  | k :: l' => "'" +:+ k +:+ "', " +:+ str_names l'
  end.

Definition read_json (f : file) : result json :=
  match f with
  | FileRaises e => Raise e
  | FileJson v => Ok v
  end.

Section Script.

Variable E : env.

Definition load_config (config_path : string) : M json :=
  try_
    (exec _ <- called (OpenFile (JStr config_path));
     exec config <- lift (read_json (files E (JStr config_path)));
     exec missing <- lift (missing_keys required_keys config);
     exec _ <- match missing with
               | [] => ret tt
               | _ :: _ =>
                   raise (Exc ConfigError
                            [Text ("Missing required keys in config: ["
                                   +:+ str_names missing +:+ "]")])
               end;
     exec _ <- try_
                 (exec team_name <- lift (getitem config "TEAM_NAME");
                  exec project_name <- lift (getitem config "PROJECT_NAME");
                  ret tt)
                 [([ConfigError], fun e =>
                     raise (Exc ConfigError
                              (Text "Failed to get WandB project info: "
                               :: exc_msg e)))];
     ret config)
    [([FileNotFoundError], fun _ =>
        raise (Exc ConfigError
                 [Text ("Config file not found: " +:+ config_path)]));
     ([JSONDecodeError], fun _ =>
        raise (Exc ConfigError
                 [Text ("Invalid JSON in config file: " +:+ config_path)]))].

(** [datetime.now()] *)
Definition datetime_now : M Py.datetime :=
  fun w => (Py.fromtimestamp (utcoffset E) (Py.PyInt (now w)), w).

(** [wandb.Api()] *)
Definition new_wandb_api : M wandb_api :=
  exec _ <- called NewWandbApi;
  ret WandbApi.

(** [init_sheet], first part: check the key file, authenticate and open
    the spreadsheet. *)
Definition connect (sheet_name : string) (config : json) : M unit :=
  exec _ <- logger INFO [Text ("Initializing sheet: " +:+ sheet_name)];
  exec key <- lift (getitem config "GCP_JSON");
  exec _ <- logger INFO [Text "Using GCP JSON key file: "; Value key];
  exec _ <- try_
              (exec path <- lift (getitem config "GCP_JSON");
               exec _ <- called (OpenFile path);
               exec _ <- lift (read_json (files E path));
               ret tt)
              [([FileNotFoundError; JSONDecodeError], fun file_error =>
                  exec _ <- logger ERROR
                              (Text "Error with service account JSON file: "
                               :: exc_msg file_error);
                  exec path <- lift (getitem config "GCP_JSON");
                  raise (Exc ConfigError
                           [Text "Invalid service account JSON file: ";
                            Value path]))];
  exec _ <- try_
              (exec path <- lift (getitem config "GCP_JSON");
               exec _ <- called (Authorize path);
               lift (credentials E path))
              [([Exception], fun auth_error =>
                  exec _ <- logger ERROR
                              (Text "Authentication error: "
                               :: exc_msg auth_error);
                  raise (Exc SheetError
                           (Text "Failed to authenticate: "
                            :: exc_msg auth_error)))];
  try_
    (exec _ <- called (OpenSpreadsheet sheet_name);
     if bool_decide (sheet_name = spreadsheet_name E)
     then ret tt
     else raise (Exc SpreadsheetNotFound []))
    [([SpreadsheetNotFound], fun _ =>
        exec _ <- logger ERROR
                    [Text ("Spreadsheet not found: " +:+ sheet_name)];
        raise (Exc SheetError
                 [Text ("Spreadsheet '" +:+ sheet_name
                        +:+ "' not found. Please check the sheet name.")]));
     ([Exception], fun open_error =>
        exec _ <- logger ERROR
                    (Text "Error opening spreadsheet: "
                     :: exc_msg open_error);
        raise (Exc SheetError
                 (Text "Failed to open spreadsheet: "
                  :: exc_msg open_error)))].

(** [init_sheet], second part: the ceiling on the number of
    worksheets. *)
Definition make_room : M unit :=
  exec sheets <- list_worksheets;
  if (100 <=? length sheets)%nat
  then
    exec oldest_sheet <-
      lift (min_by_title
              (List.filter (fun sheet => negb (is_runs_sheet sheet)) sheets));
    exec _ <- delete oldest_sheet;
    logger WARNING [Text ("Deleted oldest sheet: " +:+ title oldest_sheet)]
  else ret tt.

(** [init_sheet], third part: the worksheet to write to. *)
Definition select_worksheet : M worksheet :=
  exec default <- sheet1;
  exec content <- get_all_values default;
  if (0 <? length content)%nat
  then
    exec today <- datetime_now;
    let new_sheet_name := "runs_" +:+ Py.strftime today "%Y%m%d_%H%M%S" in
    exec for_rows <- sheet1;
    exec for_cols <- sheet1;
    exec worksheet <-
      add_worksheet new_sheet_name
                    (Z.min 1000 (row_count for_rows))
                    (Z.min 50 (col_count for_cols));
    exec for_header <- sheet1;
    exec header_row <- row_values for_header 1;
    exec _ <- match header_row with
              | [] => ret tt
              | _ :: _ => append_row worksheet header_row
              end;
    ret worksheet
  else sheet1.

Definition init_sheet (sheet_name : string) (config : json)
  : M (worksheet * wandb_api) :=
  try_
    (exec _ <- connect sheet_name config;
     exec _ <- make_room;
     exec worksheet <- select_worksheet;
     exec api <- new_wandb_api;
     exec _ <- logger INFO
                 [Text ("Successfully initialized sheet: " +:+ sheet_name)];
     ret (worksheet, api))
    [([ConfigError; SheetError], fun known_error =>
        exec _ <- logger ERROR
                    (Text "Configuration or Sheet Error: "
                     :: exc_msg known_error);
        raise known_error);
     ([Exception], fun e =>
        exec _ <- logger ERROR
                    (Text "Unexpected error in sheet initialization: "
                     :: exc_msg e);
        raise (Exc SheetError
                 (Text "Failed to initialize sheet: " :: exc_msg e)))].

Definition sync_data (sheet : worksheet) (new_rows : list (list string))
  : M unit :=
  try_
    (match new_rows with
     | [] => ret tt
     | _ :: _ =>
         exec _ <- append_rows sheet new_rows;
         sleep 1
     end)
    [([Exception], fun e =>
        raise (Exc SheetError (Text "Failed to sync data: " :: exc_msg e)))].

End Script.

(** [FIXED_HEADERS] as the [List[str]] that [process_runs] is annotated
    with. *)
Definition as_header (v : json) : option string :=
  match v with
  | JStr s => Some s
  | _ => None
  end.

Definition as_headers (v : json) : option (list string) :=
  match v with
  | JArr l => mapM as_header l
  | _ => None
  end.

(** [row[0]] *)
Definition first_cell (row : list string) : result string :=
  match row with
  | c :: _ => Ok c
  | [] => Raise (Exc IndexError [Text "list index out of range"])
  end.

Fixpoint log_all (records : list log_record) : M unit :=
  match records with
  | [] => ret tt
  | (lvl, msg) :: records' => exec _ <- logger lvl msg; log_all records'
  end.

(** A scheduled job, and [main] itself: [None] when [process_runs] would
    be called with a [FIXED_HEADERS] that is not a list of strings, which
    is outside its annotated domain and is not followed here. *)
Definition job : Type := world -> option (result unit * world).

Section Main.

Variable E : env.

(** [main] up to the call of [process_runs]: what it has fetched. *)
Definition fetch (a : args)
  : M (worksheet * list run * list string * json) :=
  exec config <- load_config E (config_path a);
  exec opened <- init_sheet E (sheet_name a) config;
  let '(sheet, api) := opened in
  exec team <- lift (getitem config "TEAM_NAME");
  exec project <- lift (getitem config "PROJECT_NAME");
  exec _ <- called (ListRuns team project);
  let runs := tracker E team project in
  exec content <- get_all_values sheet;
  exec run_id_list <- lift (map_result first_cell (drop 1 content));
  exec headers <- lift (getitem config "FIXED_HEADERS");
  ret (sheet, runs, run_id_list, headers).

(** [main] from the call of [process_runs] on. *)
Definition write (a : args) (sheet : worksheet) (runs : list run)
    (run_id_list final_headers : list string) : M unit :=
  let processed :=
    process_runs (utcoffset E) runs run_id_list final_headers (user_name a) in
  exec _ <- log_all processed.2;
  match processed.1 with
  | _ :: _ =>
      exec _ <- sync_data sheet processed.1;
      logger INFO
        [Text ("Successfully added "
               +:+ Py.str_int (Z.of_nat (length processed.1))
               +:+ " new runs")]
  | [] => logger INFO [Text "No new runs to add"]
  end.

(** The handler of [main]: log and raise again. *)
Definition main_except (e : exc) : M unit :=
  exec _ <- logger ERROR (Text "Error in main sync process: " :: exc_msg e);
  raise e.

Definition main (a : args) : job :=
  fun w =>
    match fetch a w with
    | (Raise e, w') => Some (main_except e w')
    | (Ok (sheet, runs, run_id_list, headers), w') =>
        match as_headers headers with
        | Some final_headers =>
            Some (try_ (write a sheet runs run_id_list final_headers)
                       [([Exception], main_except)] w')
        | None => None
        end
    end.

End Main.

(** ** The scheduler loop *)

(** One turn of [while True]: whether [schedule.run_pending()] finds the
    job due, and whether the user interrupts the process during the sleep
    of that turn. *)
Record tick := Tick { due : bool; sigint : bool }.

(** How far the loop got on the turns given. *)
Inductive status :=
| Running                        (* still looping *)
| Stopped                        (* left by [break] *)
| Killed (e : string)            (* left by an uncaught exception *)
| Failed (e : exc).              (* start-up raised before the loop *)

Fixpoint scheduler_loop (j : job) (ticks : list tick) (w : world)
  : option (status * world) :=
  match ticks with
  | [] => Some (Running, w)
  | t :: ticks' =>
      (* try: schedule.run_pending() *)
      match (if due t then j w else Some (Ok tt, w)) with
      | None => None
      | Some (Ok _, w1) =>
          (* time.sleep(1), still inside the try *)
          if sigint t
          then
            (* except KeyboardInterrupt *)
            Some (Stopped, (logger INFO [Text "Sync process stopped by user"] w1).2)
          else scheduler_loop j ticks' (sleep 1 w1).2
      | Some (Raise e, w1) =>
          (* except Exception as e *)
          let w2 := (logger ERROR (Text "Unexpected error: " :: exc_msg e) w1).2 in
          (* time.sleep(60), inside the handler *)
          if sigint t
          then Some (Killed "KeyboardInterrupt", w2)
          else scheduler_loop j ticks' (sleep 60 w2).2
      end
  end.

(** The [__main__] block, after [parse_args]. *)
Definition program (E : env) (a : args) (ticks : list tick) (w : world)
  : option (status * world) :=
  match
    (exec config <- load_config E (config_path a);
     exec _ <- logger INFO
                 [Text ("Starting sync process (Schedule: every "
                        +:+ Py.str_int (schedule_time a) +:+ " minutes)")];
     exec _ <- logger INFO
                 [Text ("Monitoring runs for user: " +:+ user_name a)];
     exec team <- lift (get config "TEAM_NAME" (JStr "N/A"));
     exec _ <- logger INFO [Text "Wandb team name: "; Value team];
     exec project <- lift (get config "PROJECT_NAME" (JStr "N/A"));
     exec _ <- logger INFO [Text "Wandb project name: "; Value project];
     ret tt) w
  with
  | (Raise e, w') => Some (Failed e, w')
  | (Ok _, w') => scheduler_loop (main E a) ticks w'
  end.

(** ** Notions used in the statements *)

(** The condition under which [process_runs] takes a run. *)
Definition selects (run_id_list : list string) (user_name : string)
    (r : run) : Prop :=
  run_state r = "running" /\ (run_id r ∉ run_id_list)
  /\ run_user_name r = user_name.

#[export] Instance selects_dec run_id_list user_name r :
  Decision (selects run_id_list user_name r).
Proof. unfold selects. apply _. Defined.

(** What a function returning a string gives once its raising is read as
    the empty string. *)
Definition or_empty (r : result string) : string :=
  match r with
  | Ok s => s
  | Raise _ => ""
  end.

(** ** Data for the examples *)

Module Example.

(** Two zones with a fixed offset: UTC, and nine hours east of it. *)
Definition utc (_ : Z) : Z := 0.
Definition kst (_ : Z) : Z := 32400.

Definition headers : list string := ["id"; "ts"; "user"; "accuracy"].

(** The run of the worked example: config [{"accuracy": 0.91}], summary
    [{"_timestamp": 1700000000}]. *)
Definition a_run (id user : string) (micros : result Z) : run :=
  Run id "running" user
      (Ok {[ "accuracy" := Py.PyFloat "0.91" micros ]})
      (Ok {[ "_timestamp" := Py.PyInt 1700000000 ]}).

Definition run1 : run := a_run "abc" "me" (Ok 910000).

(** A finished run, and a run of somebody else. *)
Definition run2 : run :=
  Run "def" "finished" "me" (Ok ∅) (Ok ∅).
Definition run3 : run :=
  Run "ghi" "running" "you" (Ok ∅) (Ok ∅).

(** A run whose [summary] and [config] cannot be read. *)
Definition run_broken : run :=
  Run "jkl" "running" "me"
      (Raise (Exc (OtherError "CommError") [Text "network is unreachable"]))
      (Raise (Exc (OtherError "CommError") [Text "network is unreachable"])).

(** Configuration files: a complete one, and one without [TEAM_NAME]. *)
Definition config_ok : json :=
  JObj [("GCP_JSON", JStr "key.json");
        ("FIXED_HEADERS", JArr [JStr "id"; JStr "ts"; JStr "user"; JStr "accuracy"]);
        ("TEAM_NAME", JStr "team");
        ("PROJECT_NAME", JStr "project")].

Definition config_no_team : json :=
  JObj [("GCP_JSON", JStr "key.json");
        ("FIXED_HEADERS", JArr [JStr "id"; JStr "ts"; JStr "user"; JStr "accuracy"])].

Definition fs (path : json) : file :=
  match path with
  | JStr p =>
      if bool_decide (p = "CONFIG.json") then FileJson config_ok
      else if bool_decide (p = "NOTEAM.json") then FileJson config_no_team
      else if bool_decide (p = "key.json") then FileJson (JObj [])
      else FileRaises (Exc FileNotFoundError [Text "No such file or directory"])
  | _ => FileRaises (Exc TypeError [Text "expected str, bytes or os.PathLike object"])
  end.

(** The spreadsheet is called "Runs"; the tracker lists three runs. *)
Definition E0 : env :=
  Env utc fs (fun _ => Ok tt) "Runs" (fun _ _ => [run1; run2; run3]).

Definition a0 : args := Args 30 "me" "Runs" "CONFIG.json".

(** The same, for a spreadsheet that does not exist. *)
Definition a_lost : args := Args 30 "me" "Lost" "CONFIG.json".

(** A spreadsheet whose default worksheet holds a header row. *)
Definition w0 : world :=
  World [Worksheet 0 "Sheet1" [headers] 1000 26] 1 1700000000 [] [].

(** A spreadsheet whose default worksheet is empty. *)
Definition w_empty : world :=
  World [Worksheet 0 "Sheet1" [] 1000 26] 1 1700000000 [] [].

(** A hundred worksheets, all of them named [runs_...]. *)
Definition runs_sheet (i : nat) : worksheet :=
  Worksheet i ("runs_" +:+ Py.str_nat (Z.of_nat i)) [headers] 1000 26.

Definition w_full_of_runs : world :=
  World (map runs_sheet (seq 0 100)) 100 1700000000 [] [].

(** A hundred worksheets, two of which are not named [runs_...]. *)
Definition w_full : world :=
  World (Worksheet 100 "Sheet1" [headers] 1000 26
         :: Worksheet 101 "Archive" [] 1000 26
         :: map runs_sheet (seq 0 98)) 102 1700000000 [] [].

End Example.

(** ** Further data: files and services that fail *)

Module Scenario.

(** A configuration with neither [GCP_JSON] nor [FIXED_HEADERS], and
    configurations naming key files. *)
Definition config_no_required : json :=
  JObj [("TEAM_NAME", JStr "team"); ("PROJECT_NAME", JStr "project")].

Definition config_with_key (key : string) : json :=
  JObj [("GCP_JSON", JStr key);
        ("FIXED_HEADERS", JArr [JStr "id"; JStr "ts"; JStr "user"; JStr "accuracy"]);
        ("TEAM_NAME", JStr "team");
        ("PROJECT_NAME", JStr "project")].

Definition fs (path : json) : file :=
  match path with
  | JStr p =>
      if bool_decide (p = "CONFIG.json") then FileJson Example.config_ok
      else if bool_decide (p = "key.json") then FileJson (JObj [])
      else if bool_decide (p = "broken.json")
           then FileRaises (Exc JSONDecodeError [Text "Expecting value"])
      else if bool_decide (p = "locked.json")
           then FileRaises (Exc (OtherError "PermissionError")
                                [Text "Permission denied"])
      else if bool_decide (p = "norequired.json")
           then FileJson config_no_required
      else if bool_decide (p = "number.json") then FileJson (JInt 7)
      else FileRaises (Exc FileNotFoundError [Text "No such file or directory"])
  | _ => FileRaises (Exc TypeError [Text "expected str, bytes or os.PathLike object"])
  end.

(** The service accepts the key file [key.json] only. *)
Definition keys (path : json) : result unit :=
  match path with
  | JStr p =>
      if bool_decide (p = "key.json") then Ok tt
      else Raise (Exc ValueError [Text "invalid key"])
  | _ => Raise (Exc TypeError [Text "expected str"])
  end.

Definition E1 : env :=
  Env Example.utc fs keys "Runs"
      (fun _ _ => [Example.run1; Example.run2; Example.run3]).

(** Worksheets with ids below the next id to give out. *)
Definition w1 : world :=
  World [Worksheet 0 "Sheet1"
           [Example.headers; ["old"; "2023-01-01 00:00:00"; "me"; "0.5"]]
           1000 26;
         Worksheet 1 "Notes" [["x"]] 100 5]
        2 1700000000 [OpenFile (JStr "CONFIG.json")] [].

(** Arguments naming a user who has no run. *)
Definition a_nobody : args := Args 30 "nobody" "Runs" "CONFIG.json".

(** A hundred worksheets of which only the first is not named
    [runs_...]. *)
Definition w_only_default : world :=
  World (Worksheet 100 "Sheet1" [Example.headers] 1000 26
         :: map Example.runs_sheet (seq 0 99)) 101 1700000000 [] [].

End Scenario.

(** The ids of the worksheets the script asked to delete. *)
Definition deletes (cs : list call) : list nat :=
  omap (fun c => match c with
                 | DeleteWorksheet id => Some id
                 | _ => None
                 end) cs.

(** The number of calls of a kind. *)
Definition count_calls (kind : call -> bool) (cs : list call) : nat :=
  length (List.filter kind cs).


Definition is_add_worksheet (c : call) : bool :=
  match c with
  | AddWorksheet _ _ _ => true
  | _ => false
  end.

Definition is_append (c : call) : bool :=
  match c with
  | AppendRow _ _ | AppendRows _ _ => true
  | _ => false
  end.

Definition is_append_rows (c : call) : bool :=
  match c with
  | AppendRows _ _ => true
  | _ => false
  end.


(** A computation that, wherever it is run and however it ends, leaves
    the world related by [R] to the one it started in. *)
Definition respects (R : world -> world -> Prop) {A} (m : M A) : Prop :=
  forall w, R w (m w).2.

(** Two such relations: an observation of the world is left as it was;
    the record of calls has only grown. *)
Definition same {X} (f : world -> X) : world -> world -> Prop :=
  fun w w' => f w' = f w.

Definition calls_grow : world -> world -> Prop :=
  fun w w' => calls w `prefix_of` calls w'.

(** The header row of a worksheet, as [row_values(1)] gives it. *)
Definition header_of (ws : worksheet) : list string :=
  trim (hd [] (all_values ws)).

(** The worksheet [add_worksheet] makes for a default worksheet. *)
Definition rotated (E : env) (w : world) (default : worksheet)
    (today : Py.datetime) : worksheet :=
  Worksheet (next_id w)
            ("runs_" +:+ Py.strftime today "%Y%m%d_%H%M%S") []
            (Z.min 1000 (row_count default)) (Z.min 50 (col_count default)).

(** * Properties *)

(** ** [get_timestamp] and [get_run_value] *)

Lemma get_timestamp_catches tz r :
  get_timestamp tz r = Ok (or_empty (get_timestamp_body tz r)).
Proof.
  unfold get_timestamp, try_except.
  destruct (get_timestamp_body tz r); reflexivity.
Qed.

Lemma get_run_value_catches r key :
  get_run_value r key = Ok (or_empty (get_run_value_body r key)).
Proof.
  unfold get_run_value, try_except.
  destruct (get_run_value_body r key); reflexivity.
Qed.

(** C10: [get_timestamp] and [get_run_value] never raise: on every run
    (and key) each returns a string, which is what its body computes when
    the body returns and the empty string when anything inside it raises,
    be it the access to [run.summary] or [run.config], the conversion of
    the timestamp or [str] on the value. *)
Theorem C10_getters_never_raise (tz : Z -> Z) (r : run) (key : string) :
  get_timestamp tz r = Ok (or_empty (get_timestamp_body tz r))
  /\ get_run_value r key = Ok (or_empty (get_run_value_body r key))
  /\ (forall e, get_timestamp_body tz r = Raise e -> get_timestamp tz r = Ok "")
  /\ (forall e, get_run_value_body r key = Raise e -> get_run_value r key = Ok "")
  /\ (forall e, run_summary r = Raise e -> get_timestamp tz r = Ok "")
  /\ (forall e, run_config r = Raise e -> get_run_value r key = Ok "").
Proof.
  repeat split.
  - apply get_timestamp_catches.
  - apply get_run_value_catches.
  - intros e He. rewrite get_timestamp_catches, He. reflexivity.
  - intros e He. rewrite get_run_value_catches, He. reflexivity.
  - intros e He. rewrite get_timestamp_catches.
    unfold get_timestamp_body. rewrite He. reflexivity.
  - intros e He. rewrite get_run_value_catches.
    unfold get_run_value_body. rewrite He. reflexivity.
Qed.

Lemma C10_getters_never_raise_witness :
  get_timestamp Example.kst Example.run_broken = Ok ""
  /\ get_run_value Example.run_broken "accuracy" = Ok "".
Proof.
  destruct (C10_getters_never_raise Example.kst Example.run_broken "accuracy")
    as (_ & _ & _ & _ & Hts & Hval).
  split.
  - apply (Hts (Exc (OtherError "CommError") [Text "network is unreachable"])).
    reflexivity.
  - apply (Hval (Exc (OtherError "CommError") [Text "network is unreachable"])).
    reflexivity.
Defined.

(** ** [process_runs] *)

Lemma map_result_total {A B} (f : A -> result B) (g : A -> B) (l : list A) :
  (forall x, f x = Ok (g x)) -> map_result f l = Ok (map g l).
Proof.
  intros Hf. induction l as [|x l IH]; simpl; [reflexivity|].
  rewrite Hf. simpl. rewrite IH. reflexivity.
Qed.

(** The row [process_runs] builds for a run it takes. *)
Lemma row_data_total tz r H :
  row_data tz r H
  = Ok (run_id r :: or_empty (get_timestamp_body tz r) :: run_user_name r
        :: map (fun key => or_empty (get_run_value_body r key)) (drop 3 H)).
Proof.
  unfold row_data. rewrite get_timestamp_catches. simpl.
  rewrite (map_result_total _ (fun key => or_empty (get_run_value_body r key)))
    by (intros; apply get_run_value_catches).
  reflexivity.
Qed.

Lemma process_runs_filter tz R S H U :
  process_runs tz R S H U
  = (omap (fun r => match row_data tz r H with
                    | Ok row => Some row
                    | Raise _ => None
                    end) (filter (selects S U) R), []).
Proof.
  induction R as [|r R IH]; [reflexivity|].
  cbn [process_runs]. rewrite IH. clear IH.
  rewrite filter_cons.
  destruct (decide (selects S U r)) as [(Hs & Hi & Hu)|Hn].
  - rewrite (bool_decide_eq_true_2 _ Hs), (bool_decide_eq_false_2 _ Hi),
            (bool_decide_eq_true_2 _ Hu).
    cbn [andb negb omap list_omap fst snd].
    rewrite row_data_total. reflexivity.
  - repeat case_bool_decide; cbn [andb negb]; try reflexivity.
    exfalso. apply Hn. unfold selects. tauto.
Qed.

(** C1: the rows [process_runs] returns are, in the order of [R], the
    rows of exactly the runs of [R] whose state is "running", whose id is
    not in [S] and whose user name is [U]; nothing is skipped or logged;
    and whether a run is taken does not depend on the order of [R]. *)
Theorem C1_process_runs_selects (tz : Z -> Z) (R : list run)
    (S H : list string) (U : string) :
  Forall2 (fun r row => row_data tz r H = Ok row)
          (filter (selects S U) R) (process_runs tz R S H U).1
  /\ (process_runs tz R S H U).2 = []
  /\ (forall r, r ∈ filter (selects S U) R
                <-> r ∈ R /\ run_state r = "running" /\ (run_id r ∉ S)
                    /\ run_user_name r = U)
  /\ (forall R', R ≡ₚ R' ->
        (forall r, r ∈ filter (selects S U) R <-> r ∈ filter (selects S U) R')
        /\ (process_runs tz R S H U).1 ≡ₚ (process_runs tz R' S H U).1).
Proof.
  rewrite process_runs_filter. cbn [fst snd].
  split; [|split; [reflexivity|split]].
  - induction (filter (selects S U) R) as [|r l IH]; [constructor|].
    cbn [omap list_omap]. rewrite row_data_total. constructor; [|exact IH].
    apply row_data_total.
  - intros r. rewrite list_elem_of_filter. unfold selects. tauto.
  - intros R' HP. split.
    + intros r. rewrite !list_elem_of_filter. rewrite HP. reflexivity.
    + rewrite process_runs_filter. cbn [fst]. rewrite HP. reflexivity.
Qed.

Lemma C1_process_runs_selects_witness :
  (process_runs Example.utc [Example.run1; Example.run2] [] Example.headers "me").1
  ≡ₚ (process_runs Example.utc [Example.run2; Example.run1] [] Example.headers "me").1.
Proof.
  destruct (C1_process_runs_selects Example.utc [Example.run1; Example.run2]
              [] Example.headers "me") as (_ & _ & _ & HP).
  apply HP. apply perm_swap.
Defined.

(** ** The shape of a row *)

(** The claim of C2 as stated fails: with fewer than three headers the
    row still has its three fixed columns. *)
Lemma C2_counterexample :
  ~ (forall tz R S H U row,
       row ∈ (process_runs tz R S H U).1 -> length row = length H).
Proof.
  intros Hc.
  specialize (Hc Example.utc [Example.run1] [] ["id"] "me"
                 ["abc"; "2023-11-14 22:13:20"; "me"]).
  assert (Hin : ["abc"; "2023-11-14 22:13:20"; "me"]
                ∈ (process_runs Example.utc [Example.run1] [] ["id"] "me").1).
  { vm_compute. left. }
  apply Hc in Hin. vm_compute in Hin. discriminate.
Qed.

Lemma length_drop3_max {A} (l : list A) :
  (3 + length (drop 3 l) = Nat.max 3 (length l))%nat.
Proof. rewrite length_drop. lia. Qed.

(** C2, amended: every row [process_runs] returns is the row of a run it
    takes; its columns 0-2 are the run id, the formatted timestamp or the
    empty string, and the user name; its length is the number of headers
    when there are at least three of them (three otherwise); and the cell
    of each header beyond the third is [str] of the config value of that
    name if there is one, else [str] of the summary value, else the
    empty string. *)
Theorem C2_row_shape (tz : Z -> Z) (R : list run) (S H : list string)
    (U : string) (row : list string) :
  row ∈ (process_runs tz R S H U).1 ->
  exists r ts cells,
    r ∈ R /\ selects S U r
    /\ row = run_id r :: ts :: run_user_name r :: cells
    /\ get_timestamp tz r = Ok ts
    /\ (forall s, run_summary r = Ok s -> s !! "_timestamp" = None -> ts = "")
    /\ length row = Nat.max 3 (length H)
    /\ ((3 <= length H)%nat -> length row = length H)
    /\ cells = map (fun key => or_empty (get_run_value r key)) (drop 3 H)
    /\ (forall key c s,
          run_config r = Ok c -> run_summary r = Ok s ->
          get_run_value r key
          = Ok (match c !! key with
                | Some v => or_empty (Py.str v)
                | None => match s !! key with
                          | Some v => or_empty (Py.str v)
                          | None => ""
                          end
                end)).
Proof.
  rewrite process_runs_filter. cbn [fst].
  rewrite list_elem_of_omap. intros (r & Hr & Hrow).
  rewrite row_data_total in Hrow. injection Hrow as <-.
  apply list_elem_of_filter in Hr as [Hsel HrR].
  exists r, (or_empty (get_timestamp_body tz r)),
         (map (fun key => or_empty (get_run_value_body r key)) (drop 3 H)).
  split; [exact HrR|]. split; [exact Hsel|]. split; [reflexivity|].
  split; [apply get_timestamp_catches|].
  split.
  { intros s Hs Hno. unfold get_timestamp_body. rewrite Hs. cbn [rbind].
    rewrite Hno. reflexivity. }
  assert (Hlen : length (run_id r :: or_empty (get_timestamp_body tz r)
                         :: run_user_name r
                         :: map (fun key => or_empty (get_run_value_body r key))
                                (drop 3 H))
                 = Nat.max 3 (length H)).
  { cbn [length]. rewrite length_map. rewrite <- length_drop3_max. lia. }
  split; [exact Hlen|]. split; [lia|].
  split.
  { apply map_ext. intros key. rewrite get_run_value_catches. reflexivity. }
  intros key c s Hc Hs. rewrite get_run_value_catches. f_equal.
  unfold get_run_value_body. rewrite Hc. cbn [rbind].
  destruct (c !! key) as [v|]; [reflexivity|].
  rewrite Hs. cbn [rbind].
  destruct (s !! key) as [v|]; reflexivity.
Qed.

Lemma C2_row_shape_witness :
  exists r ts cells,
    r ∈ [Example.run1] /\ selects [] "me" r
    /\ ["abc"; "2023-11-14 22:13:20"; "me"; "0.91"]
       = run_id r :: ts :: run_user_name r :: cells
    /\ get_timestamp Example.utc r = Ok ts
    /\ (forall s, run_summary r = Ok s -> s !! "_timestamp" = None -> ts = "")
    /\ length ["abc"; "2023-11-14 22:13:20"; "me"; "0.91"]
       = Nat.max 3 (length Example.headers)
    /\ ((3 <= length Example.headers)%nat ->
        length ["abc"; "2023-11-14 22:13:20"; "me"; "0.91"]
        = length Example.headers)
    /\ cells = map (fun key => or_empty (get_run_value r key))
                   (drop 3 Example.headers)
    /\ (forall key c s,
          run_config r = Ok c -> run_summary r = Ok s ->
          get_run_value r key
          = Ok (match c !! key with
                | Some v => or_empty (Py.str v)
                | None => match s !! key with
                          | Some v => or_empty (Py.str v)
                          | None => ""
                          end
                end)).
Proof.
  apply (C2_row_shape Example.utc [Example.run1] [] Example.headers "me").
  vm_compute. left.
Defined.

(** ** The worked example *)

(** The claim of C9 as stated fails: the timestamp column is local time,
    so the epoch alone does not fix it.  Nine hours east of UTC the same
    run gives another row. *)
Lemma C9_counterexample :
  ~ (forall tz id user S micros,
       id ∉ S ->
       (process_runs tz [Example.a_run id user micros] S Example.headers user).1
       = [[id; "2023-11-14 22:13:20"; user; "0.91"]]).
Proof.
  intros Hc.
  specialize (Hc Example.kst "abc" "me" [] (Ok 910000)).
  assert (Hni : "abc" ∉ ([] : list string)) by (apply not_elem_of_nil).
  apply Hc in Hni. vm_compute in Hni. discriminate.
Qed.

Lemma fromtimestamp_offset tz tz' z :
  tz z = tz' z ->
  Py.fromtimestamp tz (Py.PyInt z) = Py.fromtimestamp tz' (Py.PyInt z).
Proof.
  intros Heq. unfold Py.fromtimestamp. cbn [Py.timestamp_micros rbind].
  rewrite Z.div_mul by lia. rewrite Heq. reflexivity.
Qed.

(** C9, amended: with the headers ["id","ts","user","accuracy"], the run
    of the example is given the row [<id>, "2023-11-14 22:13:20", <user>,
    "0.91"] when the local zone is at offset 0 from UTC at that instant;
    in any zone the timestamp column is fixed by the epoch and by the
    offset of the zone at that epoch; and it is the empty string when the
    summary has no [_timestamp]. *)
Theorem C9_example_row (tz : Z -> Z) (id user : string) (S : list string)
    (micros : result Z) :
  id ∉ S ->
  (tz 1700000000 = 0 ->
   process_runs tz [Example.a_run id user micros] S Example.headers user
   = ([[id; "2023-11-14 22:13:20"; user; "0.91"]], []))
  /\ (forall tz',
        tz' 1700000000 = tz 1700000000 ->
        process_runs tz' [Example.a_run id user micros] S Example.headers user
        = process_runs tz [Example.a_run id user micros] S Example.headers user)
  /\ (forall r s,
        run_summary r = Ok s -> s !! "_timestamp" = None ->
        get_timestamp tz r = Ok "").
Proof.
  intros Hid.
  assert (Hrow : forall t,
    process_runs t [Example.a_run id user micros] S Example.headers user
    = ([[id;
         or_empty (do d <- Py.fromtimestamp t (Py.PyInt 1700000000);
                   Ok (Py.strftime d "%Y-%m-%d %H:%M:%S"));
         user; "0.91"]], [])).
  { intros t. rewrite process_runs_filter.
    rewrite filter_cons, decide_True, filter_nil.
    2:{ unfold selects, Example.a_run. cbn. auto. }
    cbn [omap list_omap]. rewrite row_data_total. reflexivity. }
  split; [|split].
  - intros Htz. rewrite Hrow.
    rewrite (fromtimestamp_offset tz Example.utc) by exact Htz.
    reflexivity.
  - intros tz' Heq. rewrite !Hrow.
    rewrite (fromtimestamp_offset tz' tz) by exact Heq. reflexivity.
  - intros r s Hs Hno. rewrite get_timestamp_catches.
    unfold get_timestamp_body. rewrite Hs. cbn [rbind]. rewrite Hno.
    reflexivity.
Qed.

Lemma C9_example_row_witness :
  process_runs Example.utc [Example.a_run "abc" "me" (Ok 910000)] ["xyz"]
               Example.headers "me"
  = ([["abc"; "2023-11-14 22:13:20"; "me"; "0.91"]], []).
Proof.
  refine (proj1 (C9_example_row Example.utc "abc" "me" ["xyz"]
                                (Ok 910000) _) _).
  - intros Hin. apply list_elem_of_singleton in Hin. discriminate.
  - reflexivity.
Defined.

(** ** [load_config] *)

Lemma bind_Ok {A B} (m : M A) (k : A -> M B) w a w1 :
  m w = (Ok a, w1) -> bind m k w = k a w1.
Proof. intros Hm. unfold bind. rewrite Hm. reflexivity. Qed.

Lemma bind_Raise {A B} (m : M A) (k : A -> M B) w e w1 :
  m w = (Raise e, w1) -> bind m k w = (Raise e, w1).
Proof. intros Hm. unfold bind. rewrite Hm. reflexivity. Qed.

Lemma bind_inv_Ok {A B} (m : M A) (k : A -> M B) w b w' :
  bind m k w = (Ok b, w') ->
  exists a w1, m w = (Ok a, w1) /\ k a w1 = (Ok b, w').
Proof.
  unfold bind. destruct (m w) as [[a|e] w1]; [eauto|discriminate].
Qed.

(** A file that is missing or is not JSON is a [ConfigError]. *)
Lemma load_config_bad_file E path w e :
  files E (JStr path) = FileRaises e ->
  isinstance e [FileNotFoundError; JSONDecodeError] = true ->
  exists msg, (load_config E path w).1 = Raise (Exc ConfigError msg).
Proof.
  intros Hf Hi. unfold load_config, try_, bind, called, lift. cbn.
  rewrite Hf. cbn.
  unfold isinstance in *. cbn in *.
  destruct (subclass (exc_cls e) FileNotFoundError); cbn; [eauto|].
  cbn in Hi. rewrite Hi. cbn. eauto.
Qed.

(** A mapping without [GCP_JSON] or without [FIXED_HEADERS] is a
    [ConfigError]. *)
Lemma load_config_missing_required E path w d :
  files E (JStr path) = FileJson (JObj d) ->
  lookup_member "GCP_JSON" d = None \/ lookup_member "FIXED_HEADERS" d = None ->
  exists msg, (load_config E path w).1 = Raise (Exc ConfigError msg).
Proof.
  intros Hf Hm. unfold load_config, try_, bind, called, lift. cbn.
  rewrite Hf. cbn.
  destruct (lookup_member "GCP_JSON" d) as [g|] eqn:Hg;
  destruct (lookup_member "FIXED_HEADERS" d) as [h|] eqn:Hh;
  cbn; eauto.
  destruct Hm; discriminate.
Qed.

(** C3: a configuration mapping that has [GCP_JSON] and [FIXED_HEADERS]
    but lacks [TEAM_NAME] makes [load_config] raise [KeyError], which is
    not a [ConfigError]: the handler around the two lookups names
    [ConfigError], which a missing key does not raise. *)
Theorem C3_load_config_missing_team_name (E : env) (path : string)
    (d : list (string * json)) (w : world) :
  files E (JStr path) = FileJson (JObj d) ->
  is_Some (lookup_member "GCP_JSON" d) ->
  is_Some (lookup_member "FIXED_HEADERS" d) ->
  lookup_member "TEAM_NAME" d = None ->
  (load_config E path w).1 = Raise (Exc KeyError [Text "'TEAM_NAME'"])
  /\ isinstance (Exc KeyError [Text "'TEAM_NAME'"]) [ConfigError] = false.
Proof.
  intros Hf [g Hg] [h Hh] Ht. split; [|reflexivity].
  unfold load_config, try_, bind, called, lift. cbn.
  rewrite Hf. cbn. rewrite Hg, Hh. cbn. rewrite Ht. cbn. reflexivity.
Qed.

Lemma C3_load_config_missing_team_name_witness :
  (load_config Example.E0 "NOTEAM.json" Example.w0).1
  = Raise (Exc KeyError [Text "'TEAM_NAME'"])
  /\ isinstance (Exc KeyError [Text "'TEAM_NAME'"]) [ConfigError] = false.
Proof.
  apply (C3_load_config_missing_team_name Example.E0 "NOTEAM.json"
           [("GCP_JSON", JStr "key.json");
            ("FIXED_HEADERS",
             JArr [JStr "id"; JStr "ts"; JStr "user"; JStr "accuracy"])]).
  - reflexivity.
  - vm_compute. eauto.
  - vm_compute. eauto.
  - reflexivity.
Defined.

(** The same slip for [PROJECT_NAME]. *)
Lemma load_config_missing_project_name E path d w :
  files E (JStr path) = FileJson (JObj d) ->
  is_Some (lookup_member "GCP_JSON" d) ->
  is_Some (lookup_member "FIXED_HEADERS" d) ->
  is_Some (lookup_member "TEAM_NAME" d) ->
  lookup_member "PROJECT_NAME" d = None ->
  (load_config E path w).1 = Raise (Exc KeyError [Text "'PROJECT_NAME'"]).
Proof.
  intros Hf [g Hg] [h Hh] [t Ht] Hp.
  unfold load_config, try_, bind, called, lift. cbn.
  rewrite Hf. cbn. rewrite Hg, Hh. cbn. rewrite Ht. cbn. rewrite Hp. cbn.
  reflexivity.
Qed.

(** What [load_config] returns is a mapping with the four names. *)
Lemma load_config_returns E path w config w' :
  load_config E path w = (Ok config, w') ->
  exists d,
    config = JObj d /\ files E (JStr path) = FileJson config
    /\ is_Some (lookup_member "GCP_JSON" d)
    /\ is_Some (lookup_member "FIXED_HEADERS" d)
    /\ is_Some (lookup_member "TEAM_NAME" d)
    /\ is_Some (lookup_member "PROJECT_NAME" d)
    /\ w' = (called (OpenFile (JStr path)) w).2.
Proof.
  unfold load_config, try_, bind, called, lift. cbn.
  destruct (files E (JStr path)) as [e|v] eqn:Hf; cbn.
  { unfold isinstance. cbn.
    destruct (subclass (exc_cls e) FileNotFoundError); cbn; [discriminate|].
    destruct (subclass (exc_cls e) JSONDecodeError); cbn; discriminate. }
  destruct v as [| | | |s|l|d]; cbn; try discriminate.
  - destruct (is_substring "GCP_JSON" s), (is_substring "FIXED_HEADERS" s);
      cbn; discriminate.
  - match goal with
    | |- context [existsb ?f l] => destruct (existsb f l)
    end;
    match goal with
    | |- context [existsb ?f l] => destruct (existsb f l)
    end; cbn; discriminate.
  - destruct (lookup_member "GCP_JSON" d) as [g|] eqn:Hg;
    destruct (lookup_member "FIXED_HEADERS" d) as [h|] eqn:Hh;
    cbn; try discriminate.
    destruct (lookup_member "TEAM_NAME" d) as [t|] eqn:Ht; cbn;
      [|discriminate].
    destruct (lookup_member "PROJECT_NAME" d) as [p|] eqn:Hp; cbn;
      [|discriminate].
    intros [= <- <-]. exists d. rewrite Hg, Hh. eauto 10.
Qed.

(** ** Computations that respect a relation on worlds *)

#[export] Instance same_preorder {X} (f : world -> X) : PreOrder (same f).
Proof.
  split.
  - intros w. reflexivity.
  - intros a b c Hab Hbc. unfold same in *. congruence.
Qed.

#[export] Instance calls_grow_preorder : PreOrder calls_grow.
Proof.
  split.
  - intros w. unfold calls_grow. reflexivity.
  - intros a b c Hab Hbc. unfold calls_grow in *. etrans; eassumption.
Qed.

Section Respects.

Context (R : world -> world -> Prop) `{!PreOrder R}.

Lemma respects_ret {A} (a : A) : respects R (ret a).
Proof. intros w. reflexivity. Qed.

Lemma respects_raise {A} (e : exc) : respects R (@raise A e).
Proof. intros w. reflexivity. Qed.

Lemma respects_lift {A} (r : result A) : respects R (lift r).
Proof. intros w. reflexivity. Qed.

Lemma respects_bind {A B} (m : M A) (k : A -> M B) :
  respects R m -> (forall a, respects R (k a)) -> respects R (bind m k).
Proof.
  intros Hm Hk w. unfold bind. specialize (Hm w).
  destruct (m w) as [[a|e] w1]; cbn in *; [|exact Hm].
  etrans; [exact Hm|apply Hk].
Qed.

Lemma respects_try {A} (body : M A) clauses :
  respects R body ->
  Forall (fun c : list exc_class * (exc -> M A) =>
            forall e, respects R (c.2 e)) clauses ->
  respects R (try_ body clauses).
Proof.
  intros Hb Hc w. unfold try_. specialize (Hb w).
  destruct (body w) as [[a|e] w1]; cbn in *; [exact Hb|].
  destruct (List.find _ clauses) as [c|] eqn:Hfind; [|exact Hb].
  apply find_some in Hfind as [Hin _]. apply list_elem_of_In in Hin.
  rewrite Forall_forall in Hc.
  etrans; [exact Hb|apply (Hc c Hin)].
Qed.

End Respects.

(** Goals [respects R m] for a script [m]: take [m] apart along its
    binds, handlers and case distinctions, and leave the calls on the
    world to [prim]. *)
Ltac respects_with prim :=
  repeat first
    [ apply respects_ret; apply _
    | apply respects_raise; apply _
    | apply respects_lift; apply _
    | apply respects_bind; [apply _| |intros ?]
    | apply respects_try; [apply _| |repeat constructor; intros ?]
    | match goal with
      | |- respects _ (match ?x with _ => _ end) => destruct x
      | |- respects _ (let (_, _) := ?x in _) => destruct x
      end
    | solve [prim] ].

Ltac prim_same :=
  intros ?w;
  unfold same, logger, called, set_worksheets, sleep, list_worksheets, sheet1,
    delete, get_all_values, row_values, add_worksheet, append_row,
    append_rows, append, api_error, datetime_now, new_wandb_api,
    set_worksheets, bind, ret, raise, lift;
  cbn;
  repeat match goal with
         | |- context [match ?x with _ => _ end] => destruct x; cbn
         end;
  unfold deletes; rewrite ?omap_app; cbn; rewrite ?app_nil_r;
  reflexivity.


(** Connecting changes neither the worksheets nor the clock, and deletes
    nothing. *)
Lemma connect_same_world E name config :
  respects (same (fun w => (worksheets w, next_id w, now w, deletes (calls w))))
           (connect E name config).
Proof. unfold connect. respects_with prim_same. Qed.

(** Choosing the worksheet deletes nothing. *)
Lemma select_worksheet_deletes E :
  respects (same (fun w => deletes (calls w))) (select_worksheet E).
Proof. unfold select_worksheet. respects_with prim_same. Qed.




Lemma log_all_same {X} (f : world -> X) records :
  (forall w lvl msg, f (logger lvl msg w).2 = f w) ->
  respects (same f) (log_all records).
Proof.
  intros Hf. induction records as [|[lvl msg] records IH]; cbn [log_all].
  - apply respects_ret. apply _.
  - apply respects_bind; [apply _| |intros _; exact IH].
    intros w. apply Hf.
Qed.

(** ** Nothing to add *)

Lemma filter_none {A} (P : A -> Prop) `{!forall x, Decision (P x)} (l : list A) :
  (forall x, x ∈ l -> ~ P x) -> filter P l = [].
Proof.
  intros Hn. destruct (filter P l) as [|x l'] eqn:Hf; [reflexivity|].
  assert (Hx : x ∈ filter P l) by (rewrite Hf; left).
  apply list_elem_of_filter in Hx as [HP Hin]. destruct (Hn x Hin HP).
Qed.

(** When no run qualifies, [process_runs] returns the empty list;
    [sync_data] on an empty batch returns without touching the world; and
    what [main] does after fetching only writes the log record "No new
    runs to add". *)
Lemma write_nothing_to_add (E : env) (a : args) (sheet : worksheet)
    (R : list run) (S H : list string) (w : world) :
  (forall r, r ∈ R -> ~ selects S (user_name a) r) ->
  (process_runs (utcoffset E) R S H (user_name a)).1 = []
  /\ sync_data sheet [] w = (Ok tt, w)
  /\ write E a sheet R S H w = logger INFO [Text "No new runs to add"] w
  /\ calls (write E a sheet R S H w).2 = calls w
  /\ worksheets (write E a sheet R S H w).2 = worksheets w
  /\ (forall w0 headers,
        fetch E a w0 = (Ok (sheet, R, S, headers), w) ->
        as_headers headers = Some H ->
        main E a w0 = Some (logger INFO [Text "No new runs to add"] w)).
Proof.
  intros Hn.
  assert (Hp : process_runs (utcoffset E) R S H (user_name a) = ([], [])).
  { rewrite process_runs_filter, filter_none by exact Hn. reflexivity. }
  assert (Hw : write E a sheet R S H w
               = logger INFO [Text "No new runs to add"] w).
  { unfold write. rewrite Hp. reflexivity. }
  split; [rewrite Hp; reflexivity|].
  split; [reflexivity|].
  split; [exact Hw|].
  split; [rewrite Hw; reflexivity|].
  split; [rewrite Hw; reflexivity|].
  intros w0 headers Hf Hh. unfold main. rewrite Hf, Hh.
  unfold try_. rewrite Hw. reflexivity.
Qed.

(** ** The scheduler loop *)

(** An error of a cycle is caught and logged, and the loop goes on after
    a minute. *)
Lemma scheduler_loop_catches j w e w1 ticks :
  j w = Some (Raise e, w1) ->
  scheduler_loop j (Tick true false :: ticks) w
  = scheduler_loop j ticks
      (sleep 60 (logger ERROR (Text "Unexpected error: " :: exc_msg e) w1).2).2.
Proof. intros Hj. cbn. rewrite Hj. reflexivity. Qed.

(** An interrupt during the sleep that follows a quiet turn or a
    successful cycle leaves the loop by [break]. *)
Lemma scheduler_loop_break j w t ticks w1 :
  sigint t = true ->
  (if due t then j w else Some (Ok tt, w)) = Some (Ok tt, w1) ->
  scheduler_loop j (t :: ticks) w
  = Some (Stopped, (logger INFO [Text "Sync process stopped by user"] w1).2).
Proof. intros Hs Hj. cbn. rewrite Hj, Hs. reflexivity. Qed.

(** Without an interrupt the loop does not end. *)
Lemma scheduler_loop_goes_on j ticks w st w' :
  Forall (fun t => sigint t = false) ticks ->
  scheduler_loop j ticks w = Some (st, w') -> st = Running.
Proof.
  intros Hq. revert w. induction Hq as [|t ticks Ht _ IH]; intros w; cbn.
  - intros [= <- _]. reflexivity.
  - rewrite Ht.
    destruct (if due t then j w else Some (Ok (), w)) as [[[[]|e] w1]|];
      [apply IH|apply IH|discriminate].
Qed.

(** C8: the exit on an interrupt is not always clean.  When a cycle has
    raised, the loop is in its [except Exception] handler, sleeping for a
    minute; an interrupt arriving then is a [KeyboardInterrupt] raised
    inside a handler, which the [except KeyboardInterrupt] clause of the
    same [try] does not catch: the loop is left by the exception, without
    the record "Sync process stopped by user". *)
Theorem C8_interrupt_during_backoff (j : job) (w w1 : world) (e : exc)
    (ticks : list tick) :
  j w = Some (Raise e, w1) ->
  scheduler_loop j (Tick true true :: ticks) w
  = Some (Killed "KeyboardInterrupt",
          (logger ERROR (Text "Unexpected error: " :: exc_msg e) w1).2).
Proof. intros Hj. cbn. rewrite Hj. reflexivity. Qed.

Lemma C8_interrupt_during_backoff_witness :
  exists w',
    program Example.E0 Example.a_lost [Tick true true] Example.w0
    = Some (Killed "KeyboardInterrupt", w')
    /\ (INFO, [Text "Sync process stopped by user"]) ∉ log w'.
Proof.
  eexists. split.
  - unfold program.
    match goal with
    | |- match ?m with _ => _ end = _ =>
        let r := eval vm_compute in m in change m with r
    end.
    cbv beta iota.
    eapply C8_interrupt_during_backoff. vm_compute. reflexivity.
  - vm_compute. intros Hin.
    repeat (apply elem_of_cons in Hin as [Hin|Hin]; [discriminate|]).
    apply elem_of_nil in Hin. exact Hin.
Defined.

(** ** The ceiling on the number of worksheets *)

Lemma compare_not_Gt_trans (a b c : string) :
  String.compare a b <> Gt -> String.compare b c <> Gt ->
  String.compare a c <> Gt.
Proof.
  revert b c. induction a as [|x a IH]; intros [|y b] [|z c]; cbn;
    try congruence.
  unfold Ascii.compare.
  destruct (N.compare_spec (Ascii.N_of_ascii x) (Ascii.N_of_ascii y));
  destruct (N.compare_spec (Ascii.N_of_ascii y) (Ascii.N_of_ascii z));
  destruct (N.compare_spec (Ascii.N_of_ascii x) (Ascii.N_of_ascii z));
  try congruence; try lia.
  apply IH.
Qed.

Lemma ltb_false_iff (a b : string) :
  String.ltb a b = false <-> String.compare b a <> Gt.
Proof.
  unfold String.ltb. rewrite (String.compare_antisym b a).
  destruct (String.compare a b); cbn; split; congruence.
Qed.

Lemma ltb_irrefl (a : string) : String.ltb a a = false.
Proof.
  unfold String.ltb. pose proof (String.compare_antisym a a) as Ha.
  destruct (String.compare a a); cbn in *; congruence.
Qed.

Lemma ltb_asym (a b : string) : String.ltb a b = true -> String.ltb b a = false.
Proof.
  unfold String.ltb. rewrite (String.compare_antisym b a).
  destruct (String.compare a b); cbn; congruence.
Qed.

(** [min] takes a sheet of the sequence than whose title no title of
    the sequence is smaller, and fails exactly on the empty sequence. *)
Lemma min_by_title_least (l : list worksheet) (v : worksheet) :
  min_by_title l = Ok v ->
  v ∈ l /\ forall s, s ∈ l -> String.ltb (title s) (title v) = false.
Proof.
  revert v. induction l as [|x l IH]; intros v; cbn; [discriminate|].
  destruct (min_by_title l) as [m|e] eqn:Hm.
  - destruct (IH m eq_refl) as [Hin Hle].
    destruct (String.ltb (title m) (title x)) eqn:Hlt; intros [= <-].
    + split; [right; exact Hin|].
      intros s Hs. apply elem_of_cons in Hs as [->|Hs]; [|apply Hle, Hs].
      apply ltb_asym, Hlt.
    + split; [left|].
      intros s Hs. apply elem_of_cons in Hs as [->|Hs]; [apply ltb_irrefl|].
      apply ltb_false_iff.
      apply (compare_not_Gt_trans _ (title m)).
      * apply ltb_false_iff, Hlt.
      * apply ltb_false_iff, Hle, Hs.
  - intros [= <-]. destruct l as [|y l]; [|cbn in Hm].
    + split; [left|]. intros s Hs.
      apply list_elem_of_singleton in Hs as ->. apply ltb_irrefl.
    + destruct (min_by_title l) as [m|]; [|discriminate].
      destruct (String.ltb (title m) (title y)); discriminate.
Qed.

Lemma min_by_title_empty (l : list worksheet) (e : exc) :
  min_by_title l = Raise e ->
  l = [] /\ e = Exc ValueError [Text "min() arg is an empty sequence"].
Proof.
  destruct l as [|x l]; cbn; [intros [= <-]; split; reflexivity|].
  destruct (min_by_title l) as [m|]; [|discriminate].
  destruct (String.ltb (title m) (title x)); discriminate.
Qed.

Lemma find_worksheet_elem (v : worksheet) (l : list worksheet) :
  v ∈ l -> is_Some (find_worksheet (ws_id v) l).
Proof.
  intros Hin. unfold find_worksheet.
  destruct (List.find _ l) as [s|] eqn:Hf; [eauto|].
  apply list_elem_of_In in Hin.
  apply (find_none _ _ Hf) in Hin.
  rewrite bool_decide_eq_true_2 in Hin by reflexivity. discriminate.
Qed.

(** What the step does, case by case. *)
Lemma make_room_cases (w : world) :
  make_room w
  = if (100 <=? length (worksheets w))%nat
    then
      match min_by_title (List.filter (fun sheet => negb (is_runs_sheet sheet))
                                      (worksheets w)) with
      | Ok v =>
          (Ok tt,
           World (List.filter
                    (fun ws => negb (bool_decide (ws_id ws = ws_id v)))
                    (worksheets w))
                 (next_id w) (now w)
                 (calls w ++ [ListWorksheets] ++ [DeleteWorksheet (ws_id v)])
                 (log w ++ [(WARNING,
                             [Text ("Deleted oldest sheet: " +:+ title v)])]))
      | Raise e => (Raise e, (called ListWorksheets w).2)
      end
    else (Ok tt, (called ListWorksheets w).2).
Proof.
  unfold make_room, list_worksheets, bind at 1 2.
  cbn -[Nat.leb min_by_title List.filter].
  destruct (100 <=? length (worksheets w))%nat; [|reflexivity].
  unfold bind at 1, lift.
  destruct (min_by_title _) as [v|e] eqn:Hmin; [|reflexivity].
  apply min_by_title_least in Hmin as [Hin _].
  apply list_elem_of_In, filter_In in Hin as [Hin _].
  apply list_elem_of_In in Hin.
  destruct (find_worksheet_elem v _ Hin) as [s Hs].
  unfold bind, delete, bind, called, set_worksheets, logger.
  cbn -[List.filter find_worksheet]. rewrite Hs. cbn -[List.filter].
  rewrite <- !app_assoc. reflexivity.
Qed.

Lemma try_bind_Ok {A B} (m : M A) (k : A -> M B) clauses w a w1 :
  m w = (Ok a, w1) -> try_ (bind m k) clauses w = try_ (k a) clauses w1.
Proof. intros Hm. unfold try_. rewrite (bind_Ok _ _ _ _ _ Hm). reflexivity. Qed.

Lemma try_bind_Raise {A B} (m : M A) (k : A -> M B) clauses w e w1 :
  m w = (Raise e, w1) -> try_ (bind m k) clauses w = try_ (raise e) clauses w1.
Proof. intros Hm. unfold try_. rewrite (bind_Raise _ _ _ _ _ Hm). reflexivity. Qed.

(** After the ceiling step [init_sheet] deletes nothing more. *)
Lemma init_sheet_deletes_after_room E name config w w1 r2 w2 :
  connect E name config w = (Ok tt, w1) ->
  make_room w1 = (r2, w2) ->
  deletes (calls (init_sheet E name config w).2) = deletes (calls w2).
Proof.
  intros Hc Hm. unfold init_sheet.
  rewrite (try_bind_Ok _ _ _ _ _ _ Hc).
  destruct r2 as [[]|e].
  - rewrite (try_bind_Ok _ _ _ _ _ _ Hm).
    match goal with
    | |- context [try_ ?b ?c w2] =>
        assert (Hr : respects (same (fun w => deletes (calls w))) (try_ b c))
          by (unfold select_worksheet; respects_with prim_same)
    end.
    apply Hr.
  - rewrite (try_bind_Raise _ _ _ _ _ _ Hm).
    match goal with
    | |- context [try_ ?b ?c w2] =>
        assert (Hr : respects (same (fun w => deletes (calls w))) (try_ b c))
          by (respects_with prim_same)
    end.
    apply Hr.
Qed.

(** When [min] fails in the ceiling step, [init_sheet] fails with a
    [SheetError]. *)
Lemma init_sheet_min_fails E name config w w1 w2 :
  connect E name config w = (Ok tt, w1) ->
  make_room w1
  = (Raise (Exc ValueError [Text "min() arg is an empty sequence"]), w2) ->
  (init_sheet E name config w).1
  = Raise (Exc SheetError [Text "Failed to initialize sheet: ";
                           Text "min() arg is an empty sequence"]).
Proof.
  intros Hc Hm. unfold init_sheet.
  rewrite (try_bind_Ok _ _ _ _ _ _ Hc).
  rewrite (try_bind_Raise _ _ _ _ _ _ Hm). reflexivity.
Qed.

Lemma filter_out_one (v : worksheet) (l : list worksheet) :
  v ∈ l -> NoDup (ws_id <$> l) ->
  (length (List.filter (fun ws => negb (bool_decide (ws_id ws = ws_id v))) l) + 1
   = length l)%nat.
Proof.
  induction l as [|x l IH]; intros Hin Hnd; [inversion Hin|].
  cbn [fmap list_fmap] in Hnd. apply NoDup_cons in Hnd as [Hx Hnd].
  cbn [List.filter]. case_bool_decide as Hid; cbn [negb length].
  - assert (Hkeep : List.filter
                      (fun ws => negb (bool_decide (ws_id ws = ws_id v))) l = l).
    { apply forallb_filter_id. apply forallb_forall. intros s Hs.
      apply negb_true_iff, bool_decide_eq_false_2. intros Heq.
      apply Hx. rewrite Hid, <- Heq. apply list_elem_of_fmap_2.
      apply list_elem_of_In, Hs. }
    rewrite Hkeep. lia.
  - apply elem_of_cons in Hin as [->|Hin]; [congruence|].
    rewrite <- (IH Hin Hnd). lia.
Qed.

Lemma deletes_app (l1 l2 : list call) :
  deletes (l1 ++ l2) = (deletes l1 ++ deletes l2)%list.
Proof. apply omap_app. Qed.

(** The claim of C5 as stated fails: with a hundred worksheets all named
    [runs_...], no worksheet is deleted, and the initialization fails. *)
Lemma C5_counterexample :
  (100 <= length (worksheets Example.w_full_of_runs))%nat
  /\ worksheets (init_sheet Example.E0 "Runs" Example.config_ok
                            Example.w_full_of_runs).2
     = worksheets Example.w_full_of_runs
  /\ deletes (calls (init_sheet Example.E0 "Runs" Example.config_ok
                                Example.w_full_of_runs).2) = []
  /\ (init_sheet Example.E0 "Runs" Example.config_ok
                 Example.w_full_of_runs).1
     = Raise (Exc SheetError [Text "Failed to initialize sheet: ";
                              Text "min() arg is an empty sequence"]).
Proof. vm_compute. repeat split; reflexivity || lia. Qed.

(** C5, amended: once the spreadsheet is open, [init_sheet] deletes no
    worksheet when there are fewer than 100; when there are 100 or more
    and some title does not start with [runs_], it deletes exactly one
    worksheet, one whose title does not start with [runs_] and than which
    no such title is smaller; when there are 100 or more and every title
    starts with [runs_], it deletes nothing and fails with a
    [SheetError]. *)
Theorem C5_ceiling (E : env) (name : string) (config : json) (w w1 : world) :
  connect E name config w = (Ok tt, w1) ->
  let sheets := worksheets w in
  let spare := List.filter (fun sheet => negb (is_runs_sheet sheet)) sheets in
  let out := init_sheet E name config w in
  ((length sheets < 100)%nat -> deletes (calls out.2) = deletes (calls w))
  /\ ((100 <= length sheets)%nat ->
      (exists s, s ∈ sheets /\ is_runs_sheet s = false) ->
      exists v,
        min_by_title spare = Ok v
        /\ deletes (calls out.2) = (deletes (calls w) ++ [ws_id v])%list
        /\ v ∈ sheets /\ is_runs_sheet v = false
        /\ (forall s, s ∈ sheets -> is_runs_sheet s = false ->
                      String.ltb (title s) (title v) = false)
        /\ worksheets (make_room w1).2
           = List.filter (fun ws => negb (bool_decide (ws_id ws = ws_id v)))
                         sheets
        /\ (NoDup (ws_id <$> sheets) ->
            (length (worksheets (make_room w1).2) + 1 = length sheets)%nat))
  /\ ((100 <= length sheets)%nat ->
      (forall s, s ∈ sheets -> is_runs_sheet s = true) ->
      deletes (calls out.2) = deletes (calls w)
      /\ exists msg, out.1 = Raise (Exc SheetError msg)).
Proof.
  intros Hc sheets spare out.
  pose proof (connect_same_world E name config w) as Hsame.
  unfold same in Hsame. rewrite Hc in Hsame. cbn [snd] in Hsame.
  injection Hsame as Hws _ _ Hdel.
  pose proof (make_room_cases w1) as Hroom. rewrite Hws in Hroom.
  fold sheets in Hroom. fold spare in Hroom.
  assert (Hout : forall r2 w2, make_room w1 = (r2, w2) ->
                               deletes (calls out.2) = deletes (calls w2))
    by (intros r2 w2; apply init_sheet_deletes_after_room, Hc).
  split; [|split].
  - intros Hlt.
    destruct (Nat.leb_spec 100 (length sheets)) as [Hge|_]; [lia|].
    rewrite (Hout _ _ Hroom). cbn. rewrite deletes_app, Hdel. cbn.
    apply app_nil_r.
  - intros Hge (s & Hs & Hspare).
    destruct (Nat.leb_spec 100 (length sheets)) as [_|Hlt]; [|lia].
    destruct (min_by_title spare) as [v|e] eqn:Hmin.
    + exists v. split; [reflexivity|].
      destruct (min_by_title_least _ _ Hmin) as [Hin Hleast].
      apply list_elem_of_In, filter_In in Hin as [Hin Hv].
      apply list_elem_of_In in Hin. apply negb_true_iff in Hv.
      split.
      { rewrite (Hout _ _ Hroom). cbn [calls].
        rewrite !deletes_app, Hdel. reflexivity. }
      split; [exact Hin|]. split; [exact Hv|].
      split.
      { intros s' Hs' Hspare'. apply Hleast.
        apply list_elem_of_In, filter_In. split.
        - apply list_elem_of_In, Hs'.
        - rewrite Hspare'. reflexivity. }
      rewrite Hroom. cbn [snd worksheets].
      split; [reflexivity|].
      intros Hnd. apply filter_out_one; assumption.
    + apply min_by_title_empty in Hmin as [Hnil _].
      assert (Hin : s ∈ spare).
      { apply list_elem_of_In, filter_In. split.
        - apply list_elem_of_In, Hs.
        - rewrite Hspare. reflexivity. }
      rewrite Hnil in Hin. inversion Hin.
  - intros Hge Hall.
    destruct (Nat.leb_spec 100 (length sheets)) as [_|Hlt]; [|lia].
    destruct (min_by_title spare) as [v|e] eqn:Hmin.
    + destruct (min_by_title_least _ _ Hmin) as [Hin _].
      apply list_elem_of_In, filter_In in Hin as [Hin Hv].
      apply list_elem_of_In, Hall in Hin. rewrite Hin in Hv. discriminate.
    + apply min_by_title_empty in Hmin as [_ ->].
      split.
      * rewrite (Hout _ _ Hroom). cbn. rewrite deletes_app, Hdel. cbn.
        apply app_nil_r.
      * eexists. unfold out.
        apply (init_sheet_min_fails E name config w w1 _ Hc Hroom).
Qed.

Lemma C5_ceiling_witness :
  exists v,
    min_by_title (List.filter (fun sheet => negb (is_runs_sheet sheet))
                              (worksheets Example.w_full)) = Ok v
    /\ title v = "Archive"
    /\ deletes (calls (init_sheet Example.E0 "Runs" Example.config_ok
                                  Example.w_full).2) = [ws_id v]
    /\ (length (worksheets
                  (make_room (connect Example.E0 "Runs" Example.config_ok
                                      Example.w_full).2).2) + 1
        = length (worksheets Example.w_full))%nat.
Proof.
  destruct (C5_ceiling Example.E0 "Runs" Example.config_ok Example.w_full
              (connect Example.E0 "Runs" Example.config_ok Example.w_full).2)
    as (_ & Hdel & _).
  - vm_compute. reflexivity.
  - destruct Hdel as (v & Hmin & Hd & _ & _ & _ & _ & Hlen).
    + vm_compute. lia.
    + exists (Worksheet 100 "Sheet1" [Example.headers] 1000 26).
      split; [left|reflexivity].
    + exists v. split; [exact Hmin|].
      split; [vm_compute in Hmin; injection Hmin as <-; reflexivity|].
      split; [exact Hd|].
      apply Hlen. apply (bool_decide_unpack (NoDup _)). vm_compute. exact I.
Defined.

(** ** The worksheet to write to *)

Lemma find_worksheet_head (d : worksheet) (rest : list worksheet) :
  find_worksheet (ws_id d) (d :: rest) = Some d.
Proof.
  unfold find_worksheet. cbn [List.find].
  rewrite bool_decide_eq_true_2 by reflexivity. reflexivity.
Qed.

(** An empty default worksheet is the one to write to. *)
Lemma select_worksheet_empty E w default rest :
  worksheets w = default :: rest ->
  all_values default = [] ->
  select_worksheet E w
  = (Ok default,
     World (worksheets w) (next_id w) (now w)
           (calls w ++ [GetSheet1; GetAllValues (ws_id default); GetSheet1])
           (log w)).
Proof.
  destruct w as [sheets nid t cs lg]. cbn [worksheets]. intros -> Hv.
  unfold select_worksheet, sheet1, get_all_values, bind, called.
  cbn -[find_worksheet]. rewrite find_worksheet_head, Hv.
  cbn. rewrite <- !app_assoc. reflexivity.
Qed.

Lemma last_map_snoc {A B} (f : A -> B) (y : B) (l : list A) (x : A) :
  last (y :: map f (l ++ [x])) = Some (f x).
Proof. rewrite map_app. cbn [map]. rewrite app_comm_cons. apply last_snoc. Qed.

(** A default worksheet with content is left alone: a new worksheet is
    added and given the header row. *)
Lemma select_worksheet_rotates E w default rest :
  worksheets w = default :: rest ->
  all_values default <> [] ->
  match Py.fromtimestamp (utcoffset E) (Py.PyInt (now w)) with
  | Raise e => (select_worksheet E w).1 = Raise e
  | Ok today =>
      let ws := rotated E w default today in
      exists sheets' ws',
        select_worksheet E w
        = (Ok ws,
           World sheets' (S (next_id w)) (now w)
                 (calls w
                  ++ [GetSheet1; GetAllValues (ws_id default); GetSheet1;
                      GetSheet1;
                      AddWorksheet (title ws) (row_count ws) (col_count ws);
                      GetSheet1; RowValues (ws_id default) 1]
                  ++ match header_of default with
                     | [] => []
                     | _ :: _ => [AppendRow (ws_id ws) (header_of default)]
                     end)
                 (log w))
        /\ last sheets' = Some ws'
        /\ ws_id ws' = ws_id ws /\ title ws' = title ws
        /\ all_values ws' = match header_of default with
                            | [] => []
                            | _ :: _ => [header_of default]
                            end
  end.
Proof.
  destruct w as [sheets nid t cs lg]. cbn [worksheets now next_id calls log].
  intros -> Hv.
  destruct (all_values default) as [|row content] eqn:Hall; [congruence|].
  unfold rotated, header_of, select_worksheet, sheet1, get_all_values,
    datetime_now, add_worksheet, row_values, append_row, append,
    set_worksheets, bind, called, ret.
  cbn -[find_worksheet Py.fromtimestamp Py.strftime].
  rewrite find_worksheet_head, Hall.
  cbn -[find_worksheet Py.fromtimestamp Py.strftime].
  destruct (Py.fromtimestamp (utcoffset E) (Py.PyInt t)) as [today|e];
    [|reflexivity].
  cbn -[find_worksheet Py.strftime].
  rewrite find_worksheet_head, Hall.
  change (Z.to_nat (1 - 1)) with 0%nat.
  cbn -[find_worksheet Py.strftime].
  destruct (trim row) as [|c header] eqn:Htrim.
  - cbn -[Py.strftime]. eexists _, _. split.
    + rewrite <- !app_assoc. reflexivity.
    + rewrite app_comm_cons, last_snoc. repeat split; reflexivity.
  - cbn -[find_worksheet Py.strftime].
    set (ws := Worksheet nid _ [] _ _).
    change (default :: rest ++ [ws])%list with ((default :: rest) ++ [ws])%list.
    destruct (find_worksheet_elem ws ((default :: rest) ++ [ws])) as [s Hs].
    { apply elem_of_app. right. left. }
    change (ws_id ws) with nid in Hs. rewrite Hs.
    cbn -[Py.strftime]. eexists _, _. split.
    + rewrite <- !app_assoc. reflexivity.
    + rewrite last_map_snoc. subst ws. cbn [ws_id].
      rewrite bool_decide_eq_true_2 by reflexivity.
      repeat split; reflexivity.
Qed.

(** A successful [init_sheet], step by step. *)
Lemma init_sheet_Ok_inv E name config w ws api w' :
  init_sheet E name config w = (Ok (ws, api), w') ->
  exists w0 w1 w2,
    connect E name config w = (Ok tt, w0)
    /\ make_room w0 = (Ok tt, w1)
    /\ select_worksheet E w1 = (Ok ws, w2)
    /\ w' = World (worksheets w2) (next_id w2) (now w2)
                  (calls w2 ++ [NewWandbApi])
                  (log w2 ++ [(INFO, [Text ("Successfully initialized sheet: "
                                            +:+ name)])]).
Proof.
  unfold init_sheet, try_.
  match goal with
  | |- match ?b w with _ => _ end = _ -> _ => destruct (b w) as [[x|e] wb] eqn:Hb
  end.
  - intros [= -> ->].
    apply bind_inv_Ok in Hb as ([] & w0 & Hc & Hb).
    apply bind_inv_Ok in Hb as ([] & w1 & Hm & Hb).
    apply bind_inv_Ok in Hb as (ws' & w2 & Hs & Hb).
    exists w0, w1, w2.
    unfold new_wandb_api, bind, called, logger, ret in Hb. cbn in Hb.
    inversion Hb; subst. auto.
  - cbn [List.find fst snd].
    destruct (isinstance e [ConfigError; SheetError]);
      [cbn; discriminate|].
    destruct (isinstance e [Exception]); cbn; discriminate.
Qed.



(** ** What a cycle does *)


(** The only call [load_config] makes is the opening of the file. *)
Lemma load_config_world E path w :
  (load_config E path w).2 = (called (OpenFile (JStr path)) w).2.
Proof.
  unfold load_config.
  rewrite (try_bind_Ok _ _ _ _ tt (called (OpenFile (JStr path)) w).2)
    by reflexivity.
  match goal with
  | |- (try_ ?b ?c _).2 = _ =>
      assert (Hr : respects (same (fun w => w)) (try_ b c))
        by (respects_with prim_same)
  end.
  apply Hr.
Qed.









(** Calls of a kind, along a computation that makes none of them. *)
Ltac prim_kind :=
  intros ?w;
  unfold same, logger, called, set_worksheets, sleep, list_worksheets, sheet1,
    delete, get_all_values, row_values, add_worksheet, append_row,
    append_rows, append, api_error, datetime_now, new_wandb_api,
    set_worksheets, bind, ret, raise, lift;
  cbn;
  repeat match goal with
         | |- context [match ?x with _ => _ end] => destruct x; cbn
         end;
  rewrite ?List.filter_app; cbn; rewrite ?app_nil_r;
  reflexivity.


Lemma load_config_same_kind E path kind :
  (forall p, kind (OpenFile p) = false) ->
  respects (same (fun w => List.filter kind (calls w))) (load_config E path).
Proof.
  intros Hk w. unfold same. rewrite load_config_world. cbn.
  rewrite List.filter_app. cbn. rewrite Hk. apply app_nil_r.
Qed.


(** [init_sheet] makes no [append_rows] call. *)
Lemma init_sheet_no_append_rows E name config :
  respects (same (fun w => List.filter is_append_rows (calls w)))
           (init_sheet E name config).
Proof.
  unfold init_sheet, connect, make_room, select_worksheet.
  respects_with prim_kind.
Qed.




Lemma log_all_calls records :
  respects (same (fun w => (calls w, worksheets w))) (log_all records).
Proof. apply log_all_same. reflexivity. Qed.










(** ** A cycle with nothing to add *)

(** The claim of C4 as stated fails for the sheet: a cycle is [main], and
    [main] runs [init_sheet] before it looks at the runs.  With no run of
    the user, on a default worksheet that has content, the cycle returns
    after "No new runs to add", and yet it has added a worksheet and
    appended the header row to it. *)
Lemma C4_counterexample :
  exists w',
    main Example.E0 Scenario.a_nobody Example.w0 = Some (Ok tt, w')
    /\ (forall r, r ∈ tracker Example.E0 (JStr "team") (JStr "project") ->
                  ~ selects [] (user_name Scenario.a_nobody) r)
    /\ last (log w') = Some (INFO, [Text "No new runs to add"])
    /\ count_calls is_append (calls w') = 1%nat
    /\ count_calls is_add_worksheet (calls w') = 1%nat
    /\ length (worksheets Example.w0) = 1%nat
    /\ length (worksheets w') = 2%nat.
Proof.
  eexists. split; [vm_compute; reflexivity|].
  split.
  - intros r Hr (_ & _ & Hu). vm_compute in Hr.
    repeat (apply elem_of_cons in Hr as [->|Hr]; [discriminate|]).
    inversion Hr.
  - vm_compute. repeat split; reflexivity.
Qed.

(** Up to the writing, a cycle makes no [append_rows] call. *)
Lemma fetch_no_append_rows E a :
  respects (same (fun w => List.filter is_append_rows (calls w))) (fetch E a).
Proof.
  unfold fetch.
  respects_with ltac:(idtac;
    first [ apply (load_config_same_kind _ _ is_append_rows (fun _ => eq_refl))
          | apply init_sheet_no_append_rows
          | prim_kind ]).
Qed.

(** C4, amended: in a cycle in which no run qualifies, [process_runs]
    returns the empty list, [sync_data] on the empty batch returns
    without touching the world, and no [append_rows] call is made in the
    whole cycle.  From the point where [main] has fetched its data the
    cycle changes nothing but the log, to which it adds "No new runs to
    add": calls, worksheets and clock are as [init_sheet] and the reading
    of the sheet left them.  (What [init_sheet] did to the spreadsheet
    earlier in the cycle is not undone.) *)
Theorem C4_nothing_to_add (E : env) (a : args) (w w1 : world)
    (sheet : worksheet) (R : list run) (S H : list string) (headers : json) :
  fetch E a w = (Ok (sheet, R, S, headers), w1) ->
  as_headers headers = Some H ->
  (forall r, r ∈ R -> ~ selects S (user_name a) r) ->
  (process_runs (utcoffset E) R S H (user_name a)).1 = []
  /\ sync_data sheet [] w1 = (Ok tt, w1)
  /\ main E a w
     = Some (Ok tt,
             World (worksheets w1) (next_id w1) (now w1) (calls w1)
                   (log w1 ++ [(INFO, [Text "No new runs to add"])]))
  /\ List.filter is_append_rows (calls w1)
     = List.filter is_append_rows (calls w).
Proof.
  intros Hf Hh Hn.
  destruct (write_nothing_to_add E a sheet R S H w1 Hn)
    as (Hrows & Hsync & _ & _ & _ & Hmain).
  split; [exact Hrows|]. split; [exact Hsync|].
  split; [exact (Hmain w headers Hf Hh)|].
  pose proof (fetch_no_append_rows E a w) as Hsame.
  unfold same in Hsame. rewrite Hf in Hsame. exact Hsame.
Qed.

Lemma C4_nothing_to_add_witness :
  exists w1,
    main Example.E0 Scenario.a_nobody Example.w_empty
    = Some (Ok tt,
            World (worksheets w1) (next_id w1) (now w1) (calls w1)
                  (log w1 ++ [(INFO, [Text "No new runs to add"])]))
    /\ List.filter is_append_rows (calls w1) = [].
Proof.
  assert (Hf : exists sheet R S headers w1,
             fetch Example.E0 Scenario.a_nobody Example.w_empty
             = (Ok (sheet, R, S, headers), w1)
             /\ as_headers headers = Some Example.headers
             /\ forall r, r ∈ R -> ~ selects S "nobody" r).
  { eexists _, _, _, _, _. split; [vm_compute; reflexivity|].
    split; [reflexivity|].
    intros r Hr (_ & _ & Hu).
    repeat (apply elem_of_cons in Hr as [->|Hr]; [discriminate|]).
    inversion Hr. }
  destruct Hf as (sheet & R & S & headers & w1 & Hf & Hh & Hn).
  destruct (C4_nothing_to_add Example.E0 Scenario.a_nobody Example.w_empty w1
              sheet R S Example.headers headers Hf Hh Hn)
    as (_ & _ & Hmain & Hnone).
  exists w1. split; [exact Hmain|exact Hnone].
Defined.

(** * Further properties *)

(** ** [load_config] *)

(** X1: a configuration file that is missing, or that is not JSON, makes
    [load_config] raise a [ConfigError] that names the path. *)
Theorem X1_load_config_file_errors (E : env) (path : string) (w : world)
    (e : exc) :
  files E (JStr path) = FileRaises e ->
  isinstance e [FileNotFoundError; JSONDecodeError] = true ->
  (load_config E path w).1
  = Raise (Exc ConfigError
             [Text ((if isinstance e [FileNotFoundError]
                     then "Config file not found: "
                     else "Invalid JSON in config file: ") +:+ path)]).
Proof.
  intros Hf Hi. unfold load_config.
  rewrite (try_bind_Ok _ _ _ _ tt (called (OpenFile (JStr path)) w).2)
    by reflexivity.
  unfold try_ at 1. unfold bind at 1, lift at 1. rewrite Hf. cbn [read_json].
  cbn [List.find fst snd].
  unfold isinstance in *. cbn [existsb] in *.
  destruct (subclass (exc_cls e) FileNotFoundError); cbn [orb] in *.
  - reflexivity.
  - rewrite Hi. reflexivity.
Qed.

Lemma X1_load_config_file_errors_witness :
  (load_config Scenario.E1 "broken.json" Example.w0).1
  = Raise (Exc ConfigError [Text "Invalid JSON in config file: broken.json"])
  /\ (load_config Scenario.E1 "absent.json" Example.w0).1
     = Raise (Exc ConfigError [Text "Config file not found: absent.json"]).
Proof.
  split.
  - apply (X1_load_config_file_errors Scenario.E1 "broken.json" Example.w0
             (Exc JSONDecodeError [Text "Expecting value"]));
      reflexivity.
  - apply (X1_load_config_file_errors Scenario.E1 "absent.json" Example.w0
             (Exc FileNotFoundError [Text "No such file or directory"]));
      reflexivity.
Defined.

(** X2: a configuration mapping without [GCP_JSON] or without
    [FIXED_HEADERS] makes [load_config] raise a [ConfigError] whose
    message lists exactly the missing ones of the two, in that order. *)
Theorem X2_load_config_missing_keys (E : env) (path : string) (w : world)
    (d : list (string * json)) :
  files E (JStr path) = FileJson (JObj d) ->
  let missing :=
    List.filter (fun key => negb (bool_decide (is_Some (lookup_member key d))))
                required_keys in
  missing <> [] ->
  (load_config E path w).1
  = Raise (Exc ConfigError
             [Text ("Missing required keys in config: ["
                    +:+ str_names missing +:+ "]")]).
Proof.
  intros Hf missing Hm. unfold load_config.
  rewrite (try_bind_Ok _ _ _ _ tt (called (OpenFile (JStr path)) w).2)
    by reflexivity.
  unfold try_ at 1. unfold bind at 1, lift at 1. rewrite Hf. cbn [read_json].
  unfold bind at 1, lift at 1.
  subst missing. revert Hm. unfold required_keys.
  cbn [missing_keys contains rbind List.filter].
  destruct (bool_decide (is_Some (lookup_member "GCP_JSON" d)));
  destruct (bool_decide (is_Some (lookup_member "FIXED_HEADERS" d)));
  cbn [negb]; intros Hm; try congruence; reflexivity.
Qed.

Lemma X2_load_config_missing_keys_witness :
  (load_config Scenario.E1 "norequired.json" Example.w0).1
  = Raise (Exc ConfigError
             [Text "Missing required keys in config: ['GCP_JSON', 'FIXED_HEADERS']"]).
Proof.
  apply (X2_load_config_missing_keys Scenario.E1 "norequired.json" Example.w0
           [("TEAM_NAME", JStr "team"); ("PROJECT_NAME", JStr "project")]).
  - reflexivity.
  - vm_compute. discriminate.
Defined.

(** X3: [load_config] returns exactly when the file holds a JSON object
    with the four names [GCP_JSON], [FIXED_HEADERS], [TEAM_NAME] and
    [PROJECT_NAME]; what it returns is the content of the file, and all it
    has done is open the file. *)
Theorem X3_load_config_returns_iff (E : env) (path : string) (w : world)
    (config : json) :
  (load_config E path w).1 = Ok config
  <-> (files E (JStr path) = FileJson config
       /\ exists d,
            config = JObj d
            /\ is_Some (lookup_member "GCP_JSON" d)
            /\ is_Some (lookup_member "FIXED_HEADERS" d)
            /\ is_Some (lookup_member "TEAM_NAME" d)
            /\ is_Some (lookup_member "PROJECT_NAME" d)).
Proof.
  split.
  - intros Hok.
    destruct (load_config E path w) as [r w'] eqn:Hl. cbn [fst] in Hok.
    subst r.
    destruct (load_config_returns _ _ _ _ _ Hl)
      as (d & -> & Hf & Hg & Hh & Ht & Hp & _).
    split; [exact Hf|]. exists d. auto.
  - intros (Hf & d & -> & [g Hg] & [h Hh] & [t Ht] & [p Hp]).
    unfold load_config, try_, bind, called, lift. cbn.
    rewrite Hf. cbn. rewrite Hg, Hh. cbn. rewrite Ht. cbn. rewrite Hp.
    reflexivity.
Qed.

Lemma X3_load_config_returns_iff_witness :
  (load_config Scenario.E1 "CONFIG.json" Example.w0).1 = Ok Example.config_ok.
Proof.
  apply (X3_load_config_returns_iff Scenario.E1 "CONFIG.json" Example.w0).
  split; [reflexivity|].
  eexists. split; [reflexivity|].
  repeat split; vm_compute; eauto.
Defined.

(** X4: [load_config] turns only [FileNotFoundError] and
    [JSONDecodeError] into [ConfigError].  Any other failure to open or
    read the file is raised as it is, and so is the [TypeError] of a file
    whose JSON value is a number, a boolean or null. *)
Theorem X4_load_config_other_errors (E : env) (path : string) (w : world) :
  (forall e,
     files E (JStr path) = FileRaises e ->
     isinstance e [FileNotFoundError; JSONDecodeError] = false ->
     (load_config E path w).1 = Raise e)
  /\ (forall v,
        files E (JStr path) = FileJson v ->
        match v with
        | JNull | JBool _ | JInt _ | JFloat _ => True
        | _ => False
        end ->
        (load_config E path w).1
        = Raise (Exc TypeError [Text "argument is not iterable"])).
Proof.
  split.
  - intros e Hf Hi. unfold load_config.
    rewrite (try_bind_Ok _ _ _ _ tt (called (OpenFile (JStr path)) w).2)
      by reflexivity.
    unfold try_ at 1. unfold bind at 1, lift at 1. rewrite Hf.
    cbn [read_json List.find fst snd].
    unfold isinstance in *. cbn [existsb] in *.
    destruct (subclass (exc_cls e) FileNotFoundError); cbn [orb] in *;
      [discriminate|].
    rewrite Hi. reflexivity.
  - intros v Hf Hv. unfold load_config, try_, bind, called, lift. cbn.
    rewrite Hf. destruct v; try destruct Hv; reflexivity.
Qed.

Lemma X4_load_config_other_errors_witness :
  (load_config Scenario.E1 "locked.json" Example.w0).1
  = Raise (Exc (OtherError "PermissionError") [Text "Permission denied"])
  /\ (load_config Scenario.E1 "number.json" Example.w0).1
     = Raise (Exc TypeError [Text "argument is not iterable"]).
Proof.
  destruct (X4_load_config_other_errors Scenario.E1 "locked.json" Example.w0)
    as [Hraise _].
  destruct (X4_load_config_other_errors Scenario.E1 "number.json" Example.w0)
    as [_ Htype].
  split.
  - apply Hraise; reflexivity.
  - apply (Htype (JInt 7)); [reflexivity|exact I].
Defined.

(** ** [init_sheet] *)

Lemma isinstance_Exception (e : exc) : isinstance e [Exception] = true.
Proof. unfold isinstance. cbn. destruct (exc_cls e); reflexivity. Qed.

Lemma isinstance_known (e : exc) :
  isinstance e [ConfigError; SheetError] = true ->
  exc_cls e = ConfigError \/ exc_cls e = SheetError.
Proof.
  unfold isinstance. cbn. destruct (exc_cls e); cbn; try discriminate; auto.
Qed.

(** X5: whatever goes wrong in [init_sheet], what it raises is a
    [ConfigError] or a [SheetError]. *)
Theorem X5_init_sheet_error_classes (E : env) (name : string) (config : json)
    (w : world) (e : exc) :
  (init_sheet E name config w).1 = Raise e ->
  exc_cls e = ConfigError \/ exc_cls e = SheetError.
Proof.
  unfold init_sheet, try_.
  match goal with
  | |- (match ?b w with _ => _ end).1 = _ -> _ =>
      destruct (b w) as [[x|e0] wb]
  end; [discriminate|].
  cbn [List.find fst snd].
  destruct (isinstance e0 [ConfigError; SheetError]) eqn:Hk.
  - unfold bind, logger, raise. cbn. intros [= <-].
    apply isinstance_known, Hk.
  - rewrite isinstance_Exception.
    unfold bind, logger, raise. cbn. intros [= <-]. right. reflexivity.
Qed.

Lemma X5_init_sheet_error_classes_witness :
  exc_cls (Exc SheetError
             [Text "Spreadsheet 'Lost' not found. Please check the sheet name."])
  = ConfigError
  \/ exc_cls (Exc SheetError
                [Text "Spreadsheet 'Lost' not found. Please check the sheet name."])
     = SheetError.
Proof.
  apply (X5_init_sheet_error_classes Example.E0 "Lost" Example.config_ok
           Example.w0).
  reflexivity.
Defined.

(** [connect] on a configuration that names a key file. *)
Lemma connect_steps E name config path w :
  getitem config "GCP_JSON" = Ok path ->
  connect E name config w
  = match read_json (files E path) with
    | Raise e =>
        if isinstance e [FileNotFoundError; JSONDecodeError]
        then
          (Raise (Exc ConfigError
                    [Text "Invalid service account JSON file: "; Value path]),
           World (worksheets w) (next_id w) (now w)
                 (calls w ++ [OpenFile path])
                 (log w ++ [(INFO, [Text ("Initializing sheet: " +:+ name)]);
                            (INFO, [Text "Using GCP JSON key file: "; Value path]);
                            (ERROR, Text "Error with service account JSON file: "
                                    :: exc_msg e)]))
        else
          (Raise e,
           World (worksheets w) (next_id w) (now w)
                 (calls w ++ [OpenFile path])
                 (log w ++ [(INFO, [Text ("Initializing sheet: " +:+ name)]);
                            (INFO, [Text "Using GCP JSON key file: "; Value path])]))
    | Ok _ =>
        match credentials E path with
        | Raise e =>
            (Raise (Exc SheetError (Text "Failed to authenticate: " :: exc_msg e)),
             World (worksheets w) (next_id w) (now w)
                   (calls w ++ [OpenFile path; Authorize path])
                   (log w ++ [(INFO, [Text ("Initializing sheet: " +:+ name)]);
                              (INFO, [Text "Using GCP JSON key file: "; Value path]);
                              (ERROR, Text "Authentication error: " :: exc_msg e)]))
        | Ok _ =>
            if bool_decide (name = spreadsheet_name E)
            then
              (Ok tt,
               World (worksheets w) (next_id w) (now w)
                     (calls w ++ [OpenFile path; Authorize path;
                                  OpenSpreadsheet name])
                     (log w ++ [(INFO, [Text ("Initializing sheet: " +:+ name)]);
                                (INFO, [Text "Using GCP JSON key file: ";
                                        Value path])]))
            else
              (Raise (Exc SheetError
                        [Text ("Spreadsheet '" +:+ name
                               +:+ "' not found. Please check the sheet name.")]),
               World (worksheets w) (next_id w) (now w)
                     (calls w ++ [OpenFile path; Authorize path;
                                  OpenSpreadsheet name])
                     (log w ++ [(INFO, [Text ("Initializing sheet: " +:+ name)]);
                                (INFO, [Text "Using GCP JSON key file: ";
                                        Value path]);
                                (ERROR, [Text ("Spreadsheet not found: "
                                               +:+ name)])]))
        end
    end.
Proof.
  intros Hg. unfold connect, try_, bind, logger, called, lift, ret, raise.
  rewrite Hg. cbn -[isinstance].
  destruct (read_json (files E path)) as [v|e]; cbn -[isinstance].
  - destruct (credentials E path) as [[]|e]; cbn -[isinstance].
    + destruct (bool_decide (name = spreadsheet_name E)); cbn;
        rewrite <- ?app_assoc; reflexivity.
    + rewrite isinstance_Exception. cbn. rewrite <- ?app_assoc. reflexivity.
  - destruct (isinstance e [FileNotFoundError; JSONDecodeError]);
      cbn -[isinstance]; rewrite ?Hg; cbn; rewrite <- ?app_assoc; reflexivity.
Qed.

(** What [init_sheet] does with a failure of [connect]: one more log
    record, and the error itself or a [SheetError] in its place. *)
Lemma init_sheet_connect_fails E name config w e w1 :
  connect E name config w = (Raise e, w1) ->
  init_sheet E name config w
  = if isinstance e [ConfigError; SheetError]
    then (Raise e,
          (logger ERROR (Text "Configuration or Sheet Error: " :: exc_msg e)
                  w1).2)
    else (Raise (Exc SheetError
                   (Text "Failed to initialize sheet: " :: exc_msg e)),
          (logger ERROR
                  (Text "Unexpected error in sheet initialization: "
                   :: exc_msg e) w1).2).
Proof.
  intros Hc. unfold init_sheet.
  rewrite (try_bind_Raise _ _ _ _ _ _ Hc).
  unfold try_, raise. cbn [List.find fst snd].
  destruct (isinstance e [ConfigError; SheetError]).
  - reflexivity.
  - rewrite isinstance_Exception. reflexivity.
Qed.

(** X6: when the key file named by [GCP_JSON] is missing or is not JSON,
    [init_sheet] raises a [ConfigError] naming it, having made no call but
    the opening of that file: the service is never contacted.  When the
    key file cannot be read for another reason, the error is a
    [SheetError]. *)
Theorem X6_init_sheet_key_file (E : env) (name : string) (config path : json)
    (w : world) (e : exc) :
  getitem config "GCP_JSON" = Ok path ->
  files E path = FileRaises e ->
  let out := init_sheet E name config w in
  calls out.2 = (calls w ++ [OpenFile path])%list
  /\ worksheets out.2 = worksheets w
  /\ out.1
     = if isinstance e [FileNotFoundError; JSONDecodeError]
       then Raise (Exc ConfigError
                     [Text "Invalid service account JSON file: "; Value path])
       else if isinstance e [ConfigError; SheetError]
       then Raise e
       else Raise (Exc SheetError
                     (Text "Failed to initialize sheet: " :: exc_msg e)).
Proof.
  intros Hg Hf out. subst out.
  pose proof (connect_steps E name config path w Hg) as Hc.
  rewrite Hf in Hc. cbn [read_json] in Hc.
  destruct (isinstance e [FileNotFoundError; JSONDecodeError]);
    rewrite (init_sheet_connect_fails _ _ _ _ _ _ Hc).
  - cbn. auto.
  - destruct (isinstance e [ConfigError; SheetError]); cbn; auto.
Qed.

Lemma X6_init_sheet_key_file_witness :
  calls (init_sheet Scenario.E1 "Runs" (Scenario.config_with_key "nokey.json")
                    Example.w0).2
  = [OpenFile (JStr "nokey.json")]
  /\ (init_sheet Scenario.E1 "Runs" (Scenario.config_with_key "nokey.json")
                 Example.w0).1
     = Raise (Exc ConfigError [Text "Invalid service account JSON file: ";
                               Value (JStr "nokey.json")])
  /\ (init_sheet Scenario.E1 "Runs" (Scenario.config_with_key "locked.json")
                 Example.w0).1
     = Raise (Exc SheetError [Text "Failed to initialize sheet: ";
                              Text "Permission denied"]).
Proof.
  destruct (X6_init_sheet_key_file Scenario.E1 "Runs"
              (Scenario.config_with_key "nokey.json") (JStr "nokey.json")
              Example.w0
              (Exc FileNotFoundError [Text "No such file or directory"]))
    as (Hcalls & _ & Hout); [reflexivity|reflexivity|].
  destruct (X6_init_sheet_key_file Scenario.E1 "Runs"
              (Scenario.config_with_key "locked.json") (JStr "locked.json")
              Example.w0
              (Exc (OtherError "PermissionError") [Text "Permission denied"]))
    as (_ & _ & Hout'); [reflexivity|reflexivity|].
  split; [exact Hcalls|]. split; [exact Hout|exact Hout'].
Defined.

(** X7: when the key file is readable but the service refuses the
    credentials, [init_sheet] raises a [SheetError] carrying the text of
    the refusal, and the spreadsheet is never opened. *)
Theorem X7_init_sheet_authentication (E : env) (name : string)
    (config path v : json) (w : world) (e : exc) :
  getitem config "GCP_JSON" = Ok path ->
  files E path = FileJson v ->
  credentials E path = Raise e ->
  let out := init_sheet E name config w in
  out.1 = Raise (Exc SheetError (Text "Failed to authenticate: " :: exc_msg e))
  /\ calls out.2 = (calls w ++ [OpenFile path; Authorize path])%list
  /\ worksheets out.2 = worksheets w.
Proof.
  intros Hg Hf Hcred out. subst out.
  pose proof (connect_steps E name config path w Hg) as Hc.
  rewrite Hf, Hcred in Hc. cbn [read_json] in Hc.
  rewrite (init_sheet_connect_fails _ _ _ _ _ _ Hc). cbn. auto.
Qed.

Lemma X7_init_sheet_authentication_witness :
  (init_sheet Scenario.E1 "Runs" (Scenario.config_with_key "CONFIG.json")
              Example.w0).1
  = Raise (Exc SheetError [Text "Failed to authenticate: "; Text "invalid key"])
  /\ calls (init_sheet Scenario.E1 "Runs"
                       (Scenario.config_with_key "CONFIG.json") Example.w0).2
     = [OpenFile (JStr "CONFIG.json"); Authorize (JStr "CONFIG.json")].
Proof.
  destruct (X7_init_sheet_authentication Scenario.E1 "Runs"
              (Scenario.config_with_key "CONFIG.json") (JStr "CONFIG.json")
              Example.config_ok Example.w0
              (Exc ValueError [Text "invalid key"]))
    as (Hout & Hcalls & _); [reflexivity|reflexivity|reflexivity|].
  split; [exact Hout|exact Hcalls].
Defined.

(** X8: when the credentials are accepted but there is no spreadsheet of
    the given name, [init_sheet] raises a [SheetError] that names the
    spreadsheet, and no worksheet is listed, added or deleted. *)
Theorem X8_init_sheet_not_found (E : env) (name : string)
    (config path v : json) (w : world) :
  getitem config "GCP_JSON" = Ok path ->
  files E path = FileJson v ->
  credentials E path = Ok tt ->
  name <> spreadsheet_name E ->
  let out := init_sheet E name config w in
  out.1 = Raise (Exc SheetError
                   [Text ("Spreadsheet '" +:+ name
                          +:+ "' not found. Please check the sheet name.")])
  /\ calls out.2
     = (calls w ++ [OpenFile path; Authorize path; OpenSpreadsheet name])%list
  /\ worksheets out.2 = worksheets w.
Proof.
  intros Hg Hf Hcred Hname out. subst out.
  pose proof (connect_steps E name config path w Hg) as Hc.
  rewrite Hf, Hcred in Hc. cbn [read_json] in Hc.
  rewrite (bool_decide_eq_false_2 _ Hname) in Hc.
  rewrite (init_sheet_connect_fails _ _ _ _ _ _ Hc). cbn. auto.
Qed.

Lemma X8_init_sheet_not_found_witness :
  (init_sheet Example.E0 "Lost" Example.config_ok Example.w0).1
  = Raise (Exc SheetError
             [Text "Spreadsheet 'Lost' not found. Please check the sheet name."])
  /\ worksheets (init_sheet Example.E0 "Lost" Example.config_ok Example.w0).2
     = worksheets Example.w0.
Proof.
  destruct (X8_init_sheet_not_found Example.E0 "Lost" Example.config_ok
              (JStr "key.json") (JObj []) Example.w0)
    as (Hout & _ & Hws); [reflexivity|reflexivity|reflexivity|discriminate|].
  split; [exact Hout|exact Hws].
Defined.

(** X9: whatever the outcome, [init_sheet] asks for the deletion of at
    most one worksheet; it does so only when the spreadsheet has 100 or
    more worksheets, and the worksheet it deletes is one of them whose
    title does not start with [runs_]. *)
Theorem X9_init_sheet_deletes (E : env) (name : string) (config : json)
    (w : world) :
  exists ids,
    deletes (calls (init_sheet E name config w).2)
    = (deletes (calls w) ++ ids)%list
    /\ (length ids <= 1)%nat
    /\ forall id, id ∈ ids ->
         (100 <= length (worksheets w))%nat
         /\ exists v, v ∈ worksheets w /\ ws_id v = id
                      /\ is_runs_sheet v = false.
Proof.
  pose proof (connect_same_world E name config w) as Hsame.
  unfold same in Hsame.
  destruct (connect E name config w) as [[[]|e] w1] eqn:Hc; cbn [snd] in Hsame;
    injection Hsame as Hws _ _ Hdel.
  - destruct (make_room w1) as [r2 w2] eqn:Hm.
    rewrite (init_sheet_deletes_after_room _ _ _ _ _ _ _ Hc Hm).
    rewrite make_room_cases, Hws in Hm.
    destruct (Nat.leb_spec 100 (length (worksheets w))) as [Hge|Hlt].
    + destruct (min_by_title _) as [v|e] eqn:Hmin.
      * injection Hm as _ <-. exists [ws_id v]. cbn [calls].
        rewrite !deletes_app, Hdel. split; [reflexivity|].
        split; [cbn; lia|].
        intros id Hid. apply list_elem_of_singleton in Hid as ->.
        split; [exact Hge|].
        apply min_by_title_least in Hmin as [Hin _].
        apply list_elem_of_In, filter_In in Hin as [Hin Hv].
        exists v. split; [apply list_elem_of_In, Hin|].
        split; [reflexivity|apply negb_true_iff, Hv].
      * injection Hm as _ <-. exists []. cbn.
        rewrite deletes_app, Hdel. cbn.
        split; [reflexivity|]. split; [lia|].
        intros id Hid. inversion Hid.
    + injection Hm as _ <-. exists []. cbn.
      rewrite deletes_app, Hdel. cbn.
      split; [reflexivity|]. split; [lia|].
      intros id Hid. inversion Hid.
  - rewrite (init_sheet_connect_fails _ _ _ _ _ _ Hc).
    exists []. rewrite app_nil_r.
    split; [destruct (isinstance e [ConfigError; SheetError]); exact Hdel|].
    split; [cbn; lia|].
    intros id Hid. inversion Hid.
Qed.

Lemma X9_init_sheet_deletes_witness :
  exists ids,
    deletes (calls (init_sheet Example.E0 "Runs" Example.config_ok
                               Example.w_full).2) = ids
    /\ (length ids <= 1)%nat
    /\ forall id, id ∈ ids ->
         exists v, v ∈ worksheets Example.w_full /\ ws_id v = id
                   /\ is_runs_sheet v = false.
Proof.
  destruct (X9_init_sheet_deletes Example.E0 "Runs" Example.config_ok
              Example.w_full) as (ids & Heq & Hlen & Hall).
  exists ids. split; [exact Heq|]. split; [exact Hlen|].
  intros id Hid. destruct (Hall id Hid) as [_ Hv]. exact Hv.
Defined.

(** ** Rotation and the ids already on the sheet *)

(** The worksheets after a rotation, exactly. *)
Lemma select_worksheet_rotates_exact E w default rest today :
  worksheets w = default :: rest ->
  all_values default <> [] ->
  Py.fromtimestamp (utcoffset E) (Py.PyInt (now w)) = Ok today ->
  let ws := rotated E w default today in
  select_worksheet E w
  = (Ok ws,
     World (match header_of default with
            | [] => worksheets w ++ [ws]
            | _ :: _ =>
                map (fun s => if bool_decide (ws_id s = next_id w)
                              then extend [header_of default] s else s)
                    (worksheets w ++ [ws])
            end)%list
           (S (next_id w)) (now w)
           (calls w
            ++ [GetSheet1; GetAllValues (ws_id default); GetSheet1; GetSheet1;
                AddWorksheet (title ws) (row_count ws) (col_count ws);
                GetSheet1; RowValues (ws_id default) 1]
            ++ match header_of default with
               | [] => []
               | _ :: _ => [AppendRow (ws_id ws) (header_of default)]
               end)%list
           (log w)).
Proof.
  destruct w as [sheets nid t cs lg]. cbn [worksheets now next_id calls log].
  intros -> Hv Hnow.
  destruct (all_values default) as [|row content] eqn:Hall; [congruence|].
  unfold rotated, header_of, select_worksheet, sheet1, get_all_values,
    datetime_now, add_worksheet, row_values, append_row, append,
    set_worksheets, bind, called, ret.
  cbn -[find_worksheet Py.fromtimestamp Py.strftime].
  rewrite find_worksheet_head, Hall.
  cbn -[find_worksheet Py.fromtimestamp Py.strftime].
  rewrite Hnow.
  cbn -[find_worksheet Py.strftime].
  rewrite find_worksheet_head, Hall.
  change (Z.to_nat (1 - 1)) with 0%nat.
  cbn -[find_worksheet Py.strftime].
  destruct (trim row) as [|c header] eqn:Htrim.
  - cbn -[Py.strftime]. rewrite <- !app_assoc. reflexivity.
  - cbn -[find_worksheet Py.strftime].
    set (ws := Worksheet nid _ [] _ _).
    change (default :: rest ++ [ws])%list with ((default :: rest) ++ [ws])%list.
    destruct (find_worksheet_elem ws ((default :: rest) ++ [ws])) as [s Hs].
    { apply elem_of_app. right. left. }
    change (ws_id ws) with nid in Hs. rewrite Hs.
    cbn -[Py.strftime]. rewrite <- !app_assoc. reflexivity.
Qed.

(** Ids below the next id to give out. *)
Lemma map_other_ids (f : worksheet -> worksheet) (id : nat)
    (l : list worksheet) :
  (forall s, s ∈ l -> ws_id s <> id) ->
  map (fun s => if bool_decide (ws_id s = id) then f s else s) l = l.
Proof.
  intros Hl. induction l as [|x l IH]; [reflexivity|].
  cbn [map]. rewrite bool_decide_eq_false_2 by (apply Hl; left).
  rewrite IH; [reflexivity|]. intros s Hs. apply Hl. right. exact Hs.
Qed.

Lemma find_worksheet_snoc (l : list worksheet) (ws : worksheet) :
  (forall s, s ∈ l -> ws_id s <> ws_id ws) ->
  find_worksheet (ws_id ws) (l ++ [ws]) = Some ws.
Proof.
  intros Hl. induction l as [|x l IH]; unfold find_worksheet in *; cbn.
  - rewrite bool_decide_eq_true_2 by reflexivity. reflexivity.
  - rewrite bool_decide_eq_false_2 by (apply Hl; left).
    apply IH. intros s Hs. apply Hl. right. exact Hs.
Qed.

Lemma find_worksheet_keep (l : list worksheet) (ws : worksheet) (id : nat) :
  id <> ws_id ws ->
  find_worksheet id (l ++ [ws]) = find_worksheet id l.
Proof.
  intros Hid. induction l as [|x l IH]; unfold find_worksheet in *; cbn.
  - rewrite bool_decide_eq_false_2 by congruence. reflexivity.
  - destruct (bool_decide (ws_id x = id)); [reflexivity|exact IH].
Qed.

(** With fewer than 100 worksheets the steps before the choice of the
    worksheet leave worksheets, ids and clock as they were. *)
Lemma before_select_same E name config w w0 w1 :
  (length (worksheets w) < 100)%nat ->
  connect E name config w = (Ok tt, w0) ->
  make_room w0 = (Ok tt, w1) ->
  worksheets w1 = worksheets w /\ next_id w1 = next_id w /\ now w1 = now w.
Proof.
  intros Hlt Hc Hm.
  pose proof (connect_same_world E name config w) as Hsame.
  unfold same in Hsame. rewrite Hc in Hsame. cbn [snd] in Hsame.
  injection Hsame as Hws Hid Hnow _.
  rewrite make_room_cases, Hws in Hm.
  destruct (Nat.leb_spec 100 (length (worksheets w))) as [Hge|_]; [lia|].
  injection Hm as <-. cbn. auto.
Qed.

(** A successful [init_sheet] on fewer than 100 worksheets with ids below
    the next id: what becomes of the worksheets. *)
Lemma init_sheet_keeps_worksheets (E : env) (name : string)
    (config : json) (w w' : world) (ws : worksheet) (api : wandb_api) :
  init_sheet E name config w = (Ok (ws, api), w') ->
  (forall s, s ∈ worksheets w -> (ws_id s < next_id w)%nat) ->
  (length (worksheets w) < 100)%nat ->
  exists default rest,
    worksheets w = default :: rest
    /\ (all_values default = [] ->
        ws = default /\ worksheets w' = worksheets w)
    /\ (all_values default <> [] ->
        exists new,
          worksheets w' = (worksheets w ++ [new])%list
          /\ ws_id ws = next_id w /\ ws_id new = next_id w
          /\ title new = title ws
          /\ all_values new = match header_of default with
                              | [] => []
                              | _ :: _ => [header_of default]
                              end).
Proof.
  intros Hinit Hfresh Hlt.
  apply init_sheet_Ok_inv in Hinit as (w0 & w1 & w2 & Hc & Hm & Hs & ->).
  destruct (before_select_same _ _ _ _ _ _ Hlt Hc Hm) as (Hws & Hid & Hnow).
  cbn [worksheets].
  destruct (worksheets w) as [|default rest] eqn:Hw.
  { unfold select_worksheet, sheet1, bind, called in Hs. cbn in Hs.
    rewrite Hws in Hs. discriminate. }
  exists default, rest. split; [reflexivity|]. split.
  - intros Hv. rewrite (select_worksheet_empty E w1 default rest Hws Hv) in Hs.
    injection Hs as <- <-. cbn. auto.
  - intros Hv.
    pose proof (select_worksheet_rotates E w1 default rest Hws Hv) as Hr.
    destruct (Py.fromtimestamp (utcoffset E) (Py.PyInt (now w1)))
      as [today|e] eqn:Htoday; [|rewrite Hs in Hr; discriminate].
    clear Hr.
    rewrite (select_worksheet_rotates_exact E w1 default rest today Hws Hv Htoday)
      in Hs.
    injection Hs as <- <-. cbn [worksheets]. rewrite Hws, Hid.
    assert (Hne : forall s, s ∈ default :: rest -> ws_id s <> next_id w).
    { intros s Hin. apply Hfresh in Hin. lia. }
    unfold rotated. rewrite Hid.
    destruct (header_of default) as [|c header].
    + eexists. split; [reflexivity|]. cbn. auto.
    + rewrite map_app, (map_other_ids _ _ _ Hne). cbn [map ws_id].
      rewrite bool_decide_eq_true_2 by reflexivity.
      eexists. split; [reflexivity|]. cbn. auto.
Qed.


(** X11: with fewer than 100 worksheets, all of ids below the next id, a
    successful [init_sheet] leaves every worksheet as it was.  When the
    default worksheet is empty it is the one returned and nothing is
    added; otherwise exactly one worksheet is added, after the others,
    holding the header row of the default worksheet and nothing else, and
    it is the one returned. *)
Theorem X11_init_sheet_keeps_worksheets (E : env) (name : string)
    (config : json) (w w' : world) (ws : worksheet) (api : wandb_api) :
  init_sheet E name config w = (Ok (ws, api), w') ->
  (forall s, s ∈ worksheets w -> (ws_id s < next_id w)%nat) ->
  (length (worksheets w) < 100)%nat ->
  exists default rest,
    worksheets w = default :: rest
    /\ (all_values default = [] ->
        ws = default /\ worksheets w' = worksheets w)
    /\ (all_values default <> [] ->
        exists new,
          worksheets w' = (worksheets w ++ [new])%list
          /\ ws_id ws = next_id w /\ ws_id new = next_id w
          /\ title new = title ws
          /\ all_values new = match header_of default with
                              | [] => []
                              | _ :: _ => [header_of default]
                              end).
Proof. apply init_sheet_keeps_worksheets. Qed.

Lemma X11_init_sheet_keeps_worksheets_witness :
  exists default rest,
    worksheets Scenario.w1 = default :: rest
    /\ exists new,
         worksheets (init_sheet Example.E0 "Runs" Example.config_ok
                                Scenario.w1).2
         = (worksheets Scenario.w1 ++ [new])%list
         /\ title new = "runs_20231114_221320"
         /\ all_values new = [Example.headers].
Proof.
  destruct (X11_init_sheet_keeps_worksheets Example.E0 "Runs" Example.config_ok
              Scenario.w1
              (init_sheet Example.E0 "Runs" Example.config_ok Scenario.w1).2
              (Worksheet 2 "runs_20231114_221320" [] 1000 26) WandbApi)
    as (default & rest & Hw & _ & Hrot).
  - vm_compute. reflexivity.
  - intros s Hs. vm_compute in Hs.
    repeat (apply elem_of_cons in Hs as [->|Hs]; [cbn; lia|]).
    inversion Hs.
  - cbn. lia.
  - exists default, rest. split; [exact Hw|].
    injection Hw as <- <-.
    destruct Hrot as (new & Hnew & _ & _ & Htitle & Hvals); [discriminate|].
    exists new. split; [exact Hnew|]. split; [exact Htitle|exact Hvals].
Defined.

(** X10: rotation empties the list of ids [main] checks runs against.
    When the default worksheet has content (and there are fewer than 100
    worksheets, with ids below the next id), the worksheet [main] reads
    the synced ids from is the new one, which holds at most the header
    row: the id list is empty, whatever ids the default worksheet
    lists. *)
Theorem X10_rotation_empties_id_list (E : env) (a : args) (w wf : world)
    (sheet : worksheet) (R : list run) (S : list string) (headers : json)
    (default : worksheet) (rest : list worksheet) :
  fetch E a w = (Ok (sheet, R, S, headers), wf) ->
  (forall s, s ∈ worksheets w -> (ws_id s < next_id w)%nat) ->
  (length (worksheets w) < 100)%nat ->
  worksheets w = default :: rest ->
  all_values default <> [] ->
  S = [] /\ ws_id sheet = next_id w.
Proof.
  intros Hf Hfresh Hlt Hw Hv. unfold fetch in Hf.
  apply bind_inv_Ok in Hf as (config & wl & Hl & Hf).
  pose proof (load_config_world E (config_path a) w) as Hwl.
  rewrite Hl in Hwl. cbn [snd] in Hwl.
  apply bind_inv_Ok in Hf as ([ws api] & w2 & Hi & Hf).
  destruct (init_sheet_keeps_worksheets E (sheet_name a) config wl w2 ws api Hi)
    as (default' & rest' & Hw' & _ & Hrot).
  { rewrite Hwl. exact Hfresh. }
  { rewrite Hwl. exact Hlt. }
  rewrite Hwl in Hw'. cbn [called snd worksheets] in Hw'.
  rewrite Hw in Hw'. injection Hw' as <- <-.
  destruct (Hrot Hv) as (new & Hnew & Hid & Hidn & _ & Hvals).
  rewrite Hwl in Hnew, Hid, Hidn. cbn [called snd worksheets next_id] in *.
  apply bind_inv_Ok in Hf as (team & w3 & Ht & Hf).
  unfold lift in Ht. injection Ht as _ <-.
  apply bind_inv_Ok in Hf as (project & w4 & Hp & Hf).
  unfold lift in Hp. injection Hp as _ <-.
  apply bind_inv_Ok in Hf as ([] & w5 & Hcall & Hf).
  unfold called in Hcall. injection Hcall as <-.
  apply bind_inv_Ok in Hf as (content & w6 & Hget & Hf).
  apply bind_inv_Ok in Hf as (ids & w7 & Hids & Hf).
  unfold lift in Hids. injection Hids as Hids <-.
  apply bind_inv_Ok in Hf as (hj & w8 & Hh & Hf).
  unfold ret in Hf. injection Hf as <- _ <- _ _.
  split; [|exact Hid].
  assert (Hcontent : content = all_values new).
  { unfold get_all_values, bind, called in Hget.
    cbn -[find_worksheet] in Hget.
    rewrite Hnew, Hid, <- Hidn in Hget.
    rewrite find_worksheet_snoc in Hget.
    - injection Hget as <- _. reflexivity.
    - intros s Hs. rewrite Hidn. apply Hfresh in Hs. lia. }
  rewrite Hcontent, Hvals in Hids.
  destruct (header_of default); cbn in Hids; congruence.
Qed.

Lemma X10_rotation_empties_id_list_witness :
  exists sheet R headers wf,
    fetch Example.E0 Example.a0 Scenario.w1 = (Ok (sheet, R, [], headers), wf)
    /\ ws_id sheet = 2%nat.
Proof.
  assert (Hf : exists sheet R S headers wf,
             fetch Example.E0 Example.a0 Scenario.w1
             = (Ok (sheet, R, S, headers), wf))
    by (eexists _, _, _, _, _; vm_compute; reflexivity).
  destruct Hf as (sheet & R & S & headers & wf & Hf).
  destruct (X10_rotation_empties_id_list Example.E0 Example.a0 Scenario.w1 wf
              sheet R S headers
              (Worksheet 0 "Sheet1"
                 [Example.headers; ["old"; "2023-01-01 00:00:00"; "me"; "0.5"]]
                 1000 26)
              [Worksheet 1 "Notes" [["x"]] 100 5] Hf) as [HS Hid].
  - intros s Hs. vm_compute in Hs.
    repeat (apply elem_of_cons in Hs as [->|Hs]; [cbn; lia|]).
    inversion Hs.
  - cbn. lia.
  - reflexivity.
  - discriminate.
  - exists sheet, R, headers, wf. subst S. split; [exact Hf|exact Hid].
Defined.

(** ** [sync_data] *)

Lemma find_worksheet_map (f : worksheet -> worksheet) (id : nat)
    (l : list worksheet) :
  (forall s, ws_id (f s) = ws_id s) ->
  find_worksheet id (map f l) = f <$> find_worksheet id l.
Proof.
  intros Hf. unfold find_worksheet.
  induction l as [|x l IH]; [reflexivity|].
  cbn [map List.find]. rewrite Hf.
  destruct (bool_decide (ws_id x = id)); [reflexivity|exact IH].
Qed.

(** X12: on a worksheet that exists, [sync_data] with a non-empty batch
    makes one [append_rows] call with the whole batch and then sleeps one
    second.  Afterwards the worksheet holds its former rows followed by
    the batch, in order, and a worksheet with another id is as it
    was. *)
Theorem X12_sync_data_appends (sheet s : worksheet)
    (new_rows : list (list string)) (w : world) :
  new_rows <> [] ->
  find_worksheet (ws_id sheet) (worksheets w) = Some s ->
  let out := sync_data sheet new_rows w in
  out.1 = Ok tt
  /\ calls out.2 = (calls w ++ [AppendRows (ws_id sheet) new_rows; Sleep 1])%list
  /\ now out.2 = now w + 1
  /\ log out.2 = log w
  /\ (exists s',
        find_worksheet (ws_id sheet) (worksheets out.2) = Some s'
        /\ title s' = title s
        /\ all_values s' = (all_values s ++ new_rows)%list)
  /\ (forall id, id <> ws_id sheet ->
        find_worksheet id (worksheets out.2) = find_worksheet id (worksheets w)).
Proof.
  intros Hne Hfind out. subst out.
  destruct new_rows as [|row rows]; [congruence|].
  unfold sync_data, try_, append_rows, append, bind, called, sleep,
    set_worksheets.
  cbn -[find_worksheet]. rewrite Hfind. cbn -[find_worksheet].
  split; [reflexivity|]. split; [rewrite <- app_assoc; reflexivity|].
  split; [reflexivity|]. split; [reflexivity|].
  set (f := fun ws => if bool_decide (ws_id ws = ws_id sheet)
                      then extend (row :: rows) ws else ws).
  assert (Hid : forall x, ws_id (f x) = ws_id x).
  { intros x. unfold f. destruct (bool_decide _); reflexivity. }
  split.
  - exists (f s). rewrite (find_worksheet_map f _ _ Hid), Hfind.
    split; [reflexivity|].
    assert (Hs : ws_id s = ws_id sheet).
    { unfold find_worksheet in Hfind. apply find_some in Hfind as [_ Hb].
      apply bool_decide_eq_true_1 in Hb. exact Hb. }
    unfold f. rewrite bool_decide_eq_true_2 by exact Hs.
    split; reflexivity.
  - intros id Hid'. rewrite (find_worksheet_map f _ _ Hid).
    destruct (find_worksheet id (worksheets w)) as [x|] eqn:Hx; [|reflexivity].
    cbn. f_equal. unfold f.
    rewrite bool_decide_eq_false_2; [reflexivity|].
    unfold find_worksheet in Hx. apply find_some in Hx as [_ Hb].
    apply bool_decide_eq_true_1 in Hb. congruence.
Qed.

Lemma X12_sync_data_appends_witness :
  exists s',
    find_worksheet 1 (worksheets
                        (sync_data (Worksheet 1 "Notes" [["x"]] 100 5)
                                   [["a"]; ["b"]] Scenario.w1).2) = Some s'
    /\ title s' = "Notes"
    /\ all_values s' = [["x"]; ["a"]; ["b"]].
Proof.
  destruct (X12_sync_data_appends (Worksheet 1 "Notes" [["x"]] 100 5)
              (Worksheet 1 "Notes" [["x"]] 100 5) [["a"]; ["b"]] Scenario.w1)
    as (_ & _ & _ & _ & Hs & _); [discriminate|reflexivity|].
  exact Hs.
Defined.

(** X13: every exception that leaves [sync_data] is a [SheetError] whose
    text is "Failed to sync data: " followed by the text of the failure;
    when the worksheet no longer exists, the call is made and fails, and
    the pause after the call is skipped. *)
Theorem X13_sync_data_wraps (sheet : worksheet) (new_rows : list (list string))
    (w : world) :
  (forall e, (sync_data sheet new_rows w).1 = Raise e ->
             exc_cls e = SheetError
             /\ exists inner, exc_msg e = Text "Failed to sync data: " :: inner)
  /\ (new_rows <> [] ->
      find_worksheet (ws_id sheet) (worksheets w) = None ->
      sync_data sheet new_rows w
      = (Raise (Exc SheetError [Text "Failed to sync data: ";
                                Text "worksheet not found"]),
         World (worksheets w) (next_id w) (now w)
               (calls w ++ [AppendRows (ws_id sheet) new_rows]) (log w))).
Proof.
  split.
  - intros e. unfold sync_data, try_.
    match goal with
    | |- (match ?b w with _ => _ end).1 = _ -> _ =>
        destruct (b w) as [[x|e0] wb]
    end; [discriminate|].
    cbn [List.find fst snd]. rewrite isinstance_Exception.
    unfold raise. cbn. intros [= <-]. split; [reflexivity|]. eauto.
  - intros Hne Hfind. destruct new_rows as [|row rows]; [congruence|].
    unfold sync_data, try_, append_rows, append, bind, called, api_error,
      raise.
    cbn -[find_worksheet]. rewrite Hfind. reflexivity.
Qed.

Lemma X13_sync_data_wraps_witness :
  sync_data (Worksheet 9 "Gone" [] 10 10) [["a"]] Scenario.w1
  = (Raise (Exc SheetError [Text "Failed to sync data: ";
                            Text "worksheet not found"]),
     World (worksheets Scenario.w1) 2 1700000000
           [OpenFile (JStr "CONFIG.json"); AppendRows 9 [["a"]]] []).
Proof.
  apply (proj2 (X13_sync_data_wraps (Worksheet 9 "Gone" [] 10 10) [["a"]]
                                    Scenario.w1));
    [discriminate|reflexivity].
Defined.

(** ** [process_runs], further *)

(** X14: [process_runs] treats each run on its own: the rows (and the
    log records) for two lists of runs put end to end are those of the
    first list followed by those of the second. *)
Theorem X14_process_runs_app (tz : Z -> Z) (R1 R2 : list run)
    (S H : list string) (U : string) :
  process_runs tz (R1 ++ R2) S H U
  = (((process_runs tz R1 S H U).1 ++ (process_runs tz R2 S H U).1)%list,
     ((process_runs tz R1 S H U).2 ++ (process_runs tz R2 S H U).2)%list).
Proof.
  rewrite !process_runs_filter. cbn [fst snd].
  rewrite filter_app, omap_app. reflexivity.
Qed.

(** X15: once the ids in the first column of the rows it returned are
    added to the list of synced ids, [process_runs] returns nothing for
    the same runs: what has been written is not written again. *)
Theorem X15_process_runs_second_pass (tz : Z -> Z) (R : list run)
    (S H : list string) (U : string) :
  (process_runs tz R
     (S ++ omap head (process_runs tz R S H U).1) H U).1 = [].
Proof.
  rewrite (process_runs_filter tz R (S ++ _)). cbn [fst].
  rewrite filter_none; [reflexivity|].
  intros r Hr (Hs & Hi & Hu). apply Hi.
  destruct (decide (run_id r ∈ S)) as [Hin|Hnin];
    [apply elem_of_app; left; exact Hin|].
  apply elem_of_app. right.
  rewrite process_runs_filter. cbn [fst].
  apply list_elem_of_omap.
  exists (run_id r :: or_empty (get_timestamp_body tz r) :: run_user_name r
          :: map (fun key => or_empty (get_run_value_body r key)) (drop 3 H)).
  split; [|reflexivity].
  apply list_elem_of_omap. exists r. split.
  - apply list_elem_of_filter. split; [|exact Hr]. unfold selects. auto.
  - rewrite row_data_total. reflexivity.
Qed.

(** ** [main], further *)

(** X17: [main] hides no error.  When it raises, the exception is the
    one raised by the step that failed, unchanged, and the last log
    record is the error record of [main] carrying its text. *)
Theorem X17_main_reraises (E : env) (a : args) (w w' : world) (e : exc) :
  main E a w = Some (Raise e, w') ->
  last (log w') = Some (ERROR, Text "Error in main sync process: " :: exc_msg e)
  /\ ((fetch E a w).1 = Raise e
      \/ exists sheet R S headers H w1,
           fetch E a w = (Ok (sheet, R, S, headers), w1)
           /\ as_headers headers = Some H
           /\ (write E a sheet R S H w1).1 = Raise e).
Proof.
  unfold main.
  destruct (fetch E a w) as [[[[[sheet R] S] headers]|e0] wf] eqn:Hf.
  - destruct (as_headers headers) as [H|] eqn:Hh; [|discriminate].
    unfold try_.
    destruct (write E a sheet R S H wf) as [[[]|e0] wb] eqn:Hw;
      [discriminate|].
    cbn [List.find fst snd]. rewrite isinstance_Exception.
    unfold main_except, bind, logger, raise. cbn.
    intros [= <- <-]. cbn [log]. split; [apply last_snoc|].
    right. exists sheet, R, S, headers, H, wf. rewrite Hw. auto.
  - unfold main_except, bind, logger, raise. cbn.
    intros [= <- <-]. cbn [log]. split; [apply last_snoc|].
    left. reflexivity.
Qed.

Lemma X17_main_reraises_witness :
  exists w',
    main Example.E0 Example.a_lost Example.w0
    = Some (Raise (Exc SheetError
                     [Text "Spreadsheet 'Lost' not found. Please check the sheet name."]),
            w')
    /\ last (log w')
       = Some (ERROR,
               [Text "Error in main sync process: ";
                Text "Spreadsheet 'Lost' not found. Please check the sheet name."]).
Proof.
  eexists. split; [vm_compute; reflexivity|].
  refine (proj1 (X17_main_reraises Example.E0 Example.a_lost Example.w0 _
                   (Exc SheetError
                      [Text "Spreadsheet 'Lost' not found. Please check the sheet name."])
                   _)).
  vm_compute. reflexivity.
Defined.

(** [sync_data] on a worksheet that exists, exactly. *)
Lemma sync_data_Ok (sheet s : worksheet) (new_rows : list (list string))
    (w : world) :
  new_rows <> [] ->
  find_worksheet (ws_id sheet) (worksheets w) = Some s ->
  sync_data sheet new_rows w
  = (Ok tt,
     World (map (fun ws => if bool_decide (ws_id ws = ws_id sheet)
                           then extend new_rows ws else ws)
                (worksheets w))
           (next_id w) (now w + 1)
           (calls w ++ [AppendRows (ws_id sheet) new_rows; Sleep 1])
           (log w)).
Proof.
  intros Hne Hfind. destruct new_rows as [|row rows]; [congruence|].
  unfold sync_data, try_, append_rows, append, bind, called, sleep,
    set_worksheets.
  cbn -[find_worksheet]. rewrite Hfind. cbn -[find_worksheet].
  rewrite <- app_assoc. reflexivity.
Qed.

(** X18: a cycle with rows to add.  When [main] has fetched its data and
    [process_runs] returns rows, all of them go to the worksheet in a
    single [append_rows] call, followed by a sleep of one second and by
    the log record that gives their number; [main] returns. *)
Theorem X18_main_adds_rows (E : env) (a : args) (w w1 : world)
    (sheet s : worksheet) (R : list run) (S H : list string) (headers : json) :
  fetch E a w = (Ok (sheet, R, S, headers), w1) ->
  as_headers headers = Some H ->
  find_worksheet (ws_id sheet) (worksheets w1) = Some s ->
  let rows := (process_runs (utcoffset E) R S H (user_name a)).1 in
  rows <> [] ->
  exists w',
    main E a w = Some (Ok tt, w')
    /\ calls w' = (calls w1 ++ [AppendRows (ws_id sheet) rows; Sleep 1])%list
    /\ log w'
       = (log w1 ++ [(INFO, [Text ("Successfully added "
                                   +:+ Py.str_int (Z.of_nat (length rows))
                                   +:+ " new runs")])])%list
    /\ now w' = now w1 + 1.
Proof.
  intros Hf Hh Hfind rows Hne. unfold main. rewrite Hf, Hh.
  unfold try_, write.
  pose proof (process_runs_filter (utcoffset E) R S H (user_name a)) as Hp.
  fold rows. assert (Hlog : (process_runs (utcoffset E) R S H (user_name a)).2
                            = []) by (rewrite Hp; reflexivity).
  rewrite Hlog. cbn [log_all].
  unfold bind at 1, ret at 1.
  destruct rows as [|row rows'] eqn:Hrows; [congruence|].
  unfold bind at 1.
  rewrite (sync_data_Ok sheet s (row :: rows') w1) by (congruence || exact Hfind).
  unfold logger. cbn.
  eexists. split; [reflexivity|]. cbn. auto.
Qed.

Lemma X18_main_adds_rows_witness :
  exists w',
    main Example.E0 Example.a0 Example.w_empty = Some (Ok tt, w')
    /\ log w'
       = [(INFO, [Text "Initializing sheet: Runs"]);
          (INFO, [Text "Using GCP JSON key file: "; Value (JStr "key.json")]);
          (INFO, [Text "Successfully initialized sheet: Runs"]);
          (INFO, [Text "Successfully added 1 new runs"])].
Proof.
  assert (Hf : exists R S headers w1,
             fetch Example.E0 Example.a0 Example.w_empty
             = (Ok (Worksheet 0 "Sheet1" [] 1000 26, R, S, headers), w1)
             /\ as_headers headers = Some Example.headers
             /\ find_worksheet 0 (worksheets w1)
                = Some (Worksheet 0 "Sheet1" [] 1000 26)
             /\ (process_runs Example.utc R S Example.headers "me").1 <> []
             /\ log w1
                = [(INFO, [Text "Initializing sheet: Runs"]);
                   (INFO, [Text "Using GCP JSON key file: ";
                           Value (JStr "key.json")]);
                   (INFO, [Text "Successfully initialized sheet: Runs"])]).
  { eexists _, _, _, _. split; [vm_compute; reflexivity|].
    split; [reflexivity|]. split; [reflexivity|].
    split; [vm_compute; discriminate|reflexivity]. }
  destruct Hf as (R & S & headers & w1 & Hf & Hh & Hfind & Hne & Hlog).
  destruct (X18_main_adds_rows Example.E0 Example.a0 Example.w_empty w1
              (Worksheet 0 "Sheet1" [] 1000 26)
              (Worksheet 0 "Sheet1" [] 1000 26) R S Example.headers headers
              Hf Hh Hfind Hne) as (w' & Hmain & _ & Hlog' & _).
  exists w'. split; [exact Hmain|].
  rewrite Hlog', Hlog.
  vm_compute in Hf. injection Hf as <- <- _ _. reflexivity.
Defined.

(** X19: when [load_config] fails in a cycle, [main] raises that very
    error, after one log record, and has made no call but the opening of
    the configuration file: neither the spreadsheet service nor the
    tracker is contacted. *)
Theorem X19_main_config_failure (E : env) (a : args) (w : world) (e : exc) :
  (load_config E (config_path a) w).1 = Raise e ->
  exists w',
    main E a w = Some (Raise e, w')
    /\ calls w' = (calls w ++ [OpenFile (JStr (config_path a))])%list
    /\ worksheets w' = worksheets w
    /\ log w' = (log w ++ [(ERROR, Text "Error in main sync process: "
                                    :: exc_msg e)])%list.
Proof.
  intros Hl.
  pose proof (load_config_world E (config_path a) w) as Hw.
  destruct (load_config E (config_path a) w) as [r w0] eqn:Hlc.
  cbn [fst snd] in *. subst r w0.
  unfold main, fetch. rewrite (bind_Raise _ _ _ _ _ Hlc).
  unfold main_except, bind, logger, raise. cbn.
  eexists. split; [reflexivity|]. cbn. auto.
Qed.

Lemma X19_main_config_failure_witness :
  exists w',
    main Scenario.E1 (Args 30 "me" "Runs" "broken.json") Example.w0
    = Some (Raise (Exc ConfigError
                     [Text "Invalid JSON in config file: broken.json"]), w')
    /\ calls w' = [OpenFile (JStr "broken.json")].
Proof.
  destruct (X19_main_config_failure Scenario.E1
              (Args 30 "me" "Runs" "broken.json") Example.w0
              (Exc ConfigError [Text "Invalid JSON in config file: broken.json"]))
    as (w' & Hmain & Hcalls & _); [reflexivity|].
  exists w'. split; [exact Hmain|exact Hcalls].
Defined.

(** ** Start-up and the loop, further *)

(** X20: a configuration that cannot be loaded at start-up ends the
    program before the loop is entered: whatever turns would follow, the
    program has failed with the error of [load_config], having only
    opened the configuration file and having logged nothing. *)
Theorem X20_program_startup_failure (E : env) (a : args) (w : world) (e : exc)
    (ticks : list tick) :
  (load_config E (config_path a) w).1 = Raise e ->
  program E a ticks w
  = Some (Failed e,
          World (worksheets w) (next_id w) (now w)
                (calls w ++ [OpenFile (JStr (config_path a))]) (log w)).
Proof.
  intros Hl.
  pose proof (load_config_world E (config_path a) w) as Hw.
  destruct (load_config E (config_path a) w) as [r w0] eqn:Hlc.
  cbn [fst snd] in *. subst r w0.
  unfold program. rewrite (bind_Raise _ _ _ _ _ Hlc). reflexivity.
Qed.

Lemma X20_program_startup_failure_witness :
  program Example.E0 (Args 30 "me" "Runs" "NOTEAM.json")
          [Tick true false; Tick true true] Example.w0
  = Some (Failed (Exc KeyError [Text "'TEAM_NAME'"]),
          World (worksheets Example.w0) 1 1700000000
                [OpenFile (JStr "NOTEAM.json")] []).
Proof.
  apply (X20_program_startup_failure Example.E0
           (Args 30 "me" "Runs" "NOTEAM.json") Example.w0).
  reflexivity.
Defined.

(** X21: the loop has no exit of its own.  On turns without an
    interrupt it is still running at the end, whatever the job does:
    return, or raise, on any of them. *)
Theorem X21_loop_never_ends_by_itself (j : job) (ticks : list tick)
    (w w' : world) (st : status) :
  Forall (fun t => sigint t = false) ticks ->
  scheduler_loop j ticks w = Some (st, w') ->
  st = Running.
Proof. apply scheduler_loop_goes_on. Qed.

Lemma X21_loop_never_ends_by_itself_witness :
  exists w',
    scheduler_loop (main Example.E0 Example.a_lost)
                   [Tick true false; Tick false false; Tick true false]
                   Example.w0 = Some (Running, w').
Proof.
  assert (Hr : exists st w',
             scheduler_loop (main Example.E0 Example.a_lost)
                            [Tick true false; Tick false false; Tick true false]
                            Example.w0 = Some (st, w'))
    by (eexists _, _; vm_compute; reflexivity).
  destruct Hr as (st & w' & Hr).
  assert (Hq : Forall (fun t => sigint t = false)
                      [Tick true false; Tick false false; Tick true false])
    by (repeat constructor).
  pose proof (X21_loop_never_ends_by_itself
                (main Example.E0 Example.a_lost) _ Example.w0 w' st Hq Hr)
    as Hst.
  subst st. exists w'. exact Hr.
Defined.

(** X22: turns on which the job is not due and no interrupt arrives only
    pass time: after [n] of them the clock is [n] seconds further, [n]
    sleeps of one second are recorded, and the worksheets and the log are
    as they were.  The job is not run. *)
Theorem X22_quiet_turns (j : job) (ticks : list tick) (w : world) :
  Forall (fun t => due t = false /\ sigint t = false) ticks ->
  scheduler_loop j ticks w
  = Some (Running,
          World (worksheets w) (next_id w)
                (now w + Z.of_nat (length ticks))
                (calls w ++ replicate (length ticks) (Sleep 1)) (log w)).
Proof.
  intros Hq. revert w. induction Hq as [|t ticks [Hd Hs] _ IH]; intros w.
  - cbn. rewrite Z.add_0_r, app_nil_r. destruct w; reflexivity.
  - cbn [scheduler_loop]. rewrite Hd, Hs. rewrite IH.
    unfold sleep. cbn [snd worksheets next_id now calls log length replicate].
    rewrite <- app_assoc. cbn [app].
    do 3 f_equal. lia.
Qed.

Lemma X22_quiet_turns_witness :
  scheduler_loop (main Example.E0 Example.a0)
                 [Tick false false; Tick false false; Tick false false]
                 Example.w0
  = Some (Running,
          World (worksheets Example.w0) 1 1700000003
                [Sleep 1; Sleep 1; Sleep 1] []).
Proof.
  apply (X22_quiet_turns (main Example.E0 Example.a0)
           [Tick false false; Tick false false; Tick false false] Example.w0).
  repeat constructor.
Defined.

(** X23: the first interrupt ends the loop.  The turns after the one in
    which it arrives play no part, and the loop is no longer running: it
    has either left by [break] or been left by the exception. *)
Theorem X23_interrupt_ends_loop (j : job) (before after : list tick)
    (t : tick) (w : world) :
  Forall (fun t => sigint t = false) before ->
  sigint t = true ->
  scheduler_loop j (before ++ t :: after) w
  = scheduler_loop j (before ++ [t]) w
  /\ forall st w', scheduler_loop j (before ++ [t]) w = Some (st, w') ->
                   st = Stopped \/ st = Killed "KeyboardInterrupt".
Proof.
  intros Hq Hs. revert w. induction Hq as [|b before Hb _ IH]; intros w.
  - cbn. rewrite Hs.
    destruct (if due t then j w else Some (Ok (), w)) as [[[[]|e] w1]|].
    + split; [reflexivity|]. intros st w' [= <- _]. left. reflexivity.
    + split; [reflexivity|]. intros st w' [= <- _]. right. reflexivity.
    + split; [reflexivity|]. discriminate.
  - cbn. rewrite Hb.
    destruct (if due b then j w else Some (Ok (), w)) as [[[[]|e] w1]|].
    + apply IH.
    + apply IH.
    + split; [reflexivity|]. discriminate.
Qed.

Lemma X23_interrupt_ends_loop_witness :
  scheduler_loop (main Example.E0 Example.a0)
                 ([Tick false false] ++ Tick false true :: [Tick true false])
                 Example.w0
  = scheduler_loop (main Example.E0 Example.a0)
                   ([Tick false false] ++ [Tick false true]) Example.w0.
Proof.
  apply (X23_interrupt_ends_loop (main Example.E0 Example.a0)
           [Tick false false] [Tick true false] (Tick false true) Example.w0).
  - repeat constructor.
  - reflexivity.
Defined.

(** ** The ceiling step and the default worksheet *)

Lemma filter_all_false {A} (f : A -> bool) (l : list A) :
  (forall x, x ∈ l -> f x = false) -> List.filter f l = [].
Proof.
  intros Hl. induction l as [|x l IH]; [reflexivity|].
  cbn. rewrite (Hl x) by left. apply IH. intros y Hy. apply Hl. right. exact Hy.
Qed.

Lemma filter_all_true {A} (f : A -> bool) (l : list A) :
  (forall x, x ∈ l -> f x = true) -> List.filter f l = l.
Proof.
  intros Hl. induction l as [|x l IH]; [reflexivity|].
  cbn. rewrite (Hl x) by left. f_equal. apply IH.
  intros y Hy. apply Hl. right. exact Hy.
Qed.

(** X16: the worksheet deleted at the ceiling can be the default one.
    When the spreadsheet is open with 100 or more worksheets of which
    only the first has a title not starting with [runs_], [init_sheet]
    deletes that first worksheet; the worksheets left are the others, so
    the one examined next as the default worksheet is the former
    second. *)
Theorem X16_ceiling_deletes_default (E : env) (name : string) (config : json)
    (w w1 : world) (default : worksheet) (rest : list worksheet) :
  connect E name config w = (Ok tt, w1) ->
  worksheets w = default :: rest ->
  (99 <= length rest)%nat ->
  is_runs_sheet default = false ->
  (forall s, s ∈ rest -> is_runs_sheet s = true) ->
  (forall s, s ∈ rest -> ws_id s <> ws_id default) ->
  (make_room w1).1 = Ok tt
  /\ worksheets (make_room w1).2 = rest
  /\ deletes (calls (init_sheet E name config w).2)
     = (deletes (calls w) ++ [ws_id default])%list.
Proof.
  intros Hc Hw Hlen Hd Hruns Hids.
  pose proof (connect_same_world E name config w) as Hsame.
  unfold same in Hsame. rewrite Hc in Hsame. cbn [snd] in Hsame.
  injection Hsame as Hws _ _ Hdel.
  pose proof (make_room_cases w1) as Hroom. rewrite Hws, Hw in Hroom.
  assert (Hge : (100 <=? length (default :: rest))%nat = true)
    by (apply Nat.leb_le; cbn; lia).
  rewrite Hge in Hroom.
  assert (Hspare : List.filter (fun sheet => negb (is_runs_sheet sheet))
                               (default :: rest) = [default]).
  { cbn [List.filter]. rewrite Hd. cbn [negb]. f_equal.
    apply filter_all_false. intros s Hs. rewrite (Hruns s Hs). reflexivity. }
  rewrite Hspare in Hroom. cbn [min_by_title] in Hroom.
  assert (Hleft : List.filter
                    (fun ws => negb (bool_decide (ws_id ws = ws_id default)))
                    (default :: rest) = rest).
  { cbn [List.filter]. rewrite bool_decide_eq_true_2 by reflexivity.
    cbn [negb]. apply filter_all_true. intros s Hs.
    rewrite bool_decide_eq_false_2 by (apply Hids, Hs). reflexivity. }
  rewrite Hleft in Hroom.
  rewrite (init_sheet_deletes_after_room _ _ _ _ _ _ _ Hc Hroom).
  rewrite Hroom. cbn [fst snd worksheets calls].
  split; [reflexivity|]. split; [reflexivity|].
  rewrite !deletes_app, Hdel. reflexivity.
Qed.

Lemma X16_ceiling_deletes_default_witness :
  worksheets (make_room (connect Example.E0 "Runs" Example.config_ok
                                 Scenario.w_only_default).2).2
  = map Example.runs_sheet (seq 0 99)
  /\ deletes (calls (init_sheet Example.E0 "Runs" Example.config_ok
                                Scenario.w_only_default).2) = [100%nat].
Proof.
  destruct (X16_ceiling_deletes_default Example.E0 "Runs" Example.config_ok
              Scenario.w_only_default
              (connect Example.E0 "Runs" Example.config_ok
                       Scenario.w_only_default).2
              (Worksheet 100 "Sheet1" [Example.headers] 1000 26)
              (map Example.runs_sheet (seq 0 99)))
    as (_ & Hleft & Hdel).
  - vm_compute. reflexivity.
  - reflexivity.
  - rewrite length_map, length_seq. lia.
  - reflexivity.
  - intros s Hs. apply list_elem_of_fmap in Hs as (i & -> & _).
    unfold is_runs_sheet, Example.runs_sheet. cbn [title].
    destruct (Py.str_nat (Z.of_nat i)); reflexivity.
  - intros s Hs. apply list_elem_of_fmap in Hs as (i & -> & Hi).
    apply elem_of_seq in Hi. cbn. lia.
  - split; [exact Hleft|exact Hdel].
Defined.
